(** * gp: a shallow embedding of the ICMP pinger of package [pg] (gp.go)

    The development follows the source file top to bottom: the constants and
    the two protocol tables, the three structs, [NewPinger], [isIPv4], [Run],
    [GenerateStats], [finish] and [listen].  Go's [int] and [time.Duration]
    are 64-bit two's-complement integers (the 64-bit targets of the Go
    toolchain); they are carried as [Z] with the wrap-around written out.
    [float64] is the primitive IEEE 754 binary64 type.  The collaborators
    the package calls but does not implement (the resolver, the ICMP
    listener, the random generator, the clock) are section variables. *)

From Stdlib Require Import ZArith String List Bool Lia.
From Stdlib Require Import PrimFloat SpecFloat FloatOps.
Import ListNotations.

Set Implicit Arguments.
Open Scope Z_scope.

(** ** 64-bit signed integers *)

Module Int64.

Definition modulus : Z := 2 ^ 64.
Definition half : Z := 2 ^ 63.
Definition min_int : Z := - half.
Definition max_int : Z := half - 1.

Definition in_range (z : Z) : Prop := min_int <= z <= max_int.

(** The signed representative of [z] modulo [2^64]. *)
Definition wrap (z : Z) : Z := (z + half) mod modulus - half.

Definition add (a b : Z) : Z := wrap (a + b).
Definition sub (a b : Z) : Z := wrap (a - b).
Definition mul (a b : Z) : Z := wrap (a * b).

(** Go's [/] on integers truncates toward zero; [MinInt64 / -1] wraps.
    A zero divisor panics in Go: every use below is guarded by
    [len(p.rtts) > 0]. *)
Definition quot (a b : Z) : Z := wrap (Z.quot a b).

End Int64.

(** ** float64 *)

Module Float64.

(** [float64(i)] for an integer [i]: round to nearest, ties to even. *)
Definition of_int (z : Z) : float :=
  SF2Prim (binary_normalize prec emax z 0 false).

(** The integer part of a finite float, [None] on NaN and infinities. *)
Definition trunc (f : float) : option Z :=
  match Prim2SF f with
  | S754_zero _ => Some 0
  | S754_finite s m e =>
      let mag := if 0 <=? e then Z.pos m * 2 ^ e
                 else Z.pos m / 2 ^ (- e) in
      Some (if s then - mag else mag)
  | S754_infinity _ | S754_nan => None
  end.

(** [int64(f)]: the fraction is discarded.  When the value does not fit
    (or is NaN) the Go specification leaves the result to the
    implementation; [undef] is that choice. *)
Definition to_int64 (undef : float -> Z) (f : float) : Z :=
  match trunc f with
  | Some z => if (Int64.min_int <=? z) && (z <=? Int64.max_int)
              then z else undef f
  | None => undef f
  end.

End Float64.

(** ** Package [math], [time] and [net]: the pieces gp.go uses *)

Module math.
Definition MaxInt16 : Z := 2 ^ 15 - 1.
Definition MaxInt64 : Z := 2 ^ 63 - 1.
Definition Sqrt (f : float) : float := PrimFloat.sqrt f.
End math.

Module time.
(** A [Duration] is an [int64] count of nanoseconds. *)
Definition Duration : Type := Z.
Definition Second : Duration := 1000000000.
End time.

Definition error : Type := string.

Inductive result (A : Type) : Type :=
| Ok (a : A)
| Err (e : error).
Arguments Err {A} e.

Module net.

Definition IP : Type := list Byte.byte.

Record IPAddr : Type := mkIPAddr { IP_ : IP; Zone : string }.

Definition IPv4len : nat := 4.
Definition IPv6len : nat := 16.

Definition isZeros (p : IP) : bool :=
  forallb (fun b => Byte.eqb b Byte.x00) p.

(** [ip.To4()]: the 4-byte form of an IPv4 address, [nil] otherwise. *)
Definition To4 (ip : IP) : IP :=
  if Nat.eqb (length ip) IPv4len then ip
  else if Nat.eqb (length ip) IPv6len
          && isZeros (firstn 10 ip)
          && Byte.eqb (nth 10 ip Byte.x00) Byte.xff
          && Byte.eqb (nth 11 ip Byte.x00) Byte.xff
       then firstn 4 (skipn 12 ip)
       else [].

End net.

(** ** Constants and protocol tables (gp.go, lines 15-25) *)

Definition timeSliceLen : Z := 8.
Definition trackerLen : Z := 8.
Definition protocolICMP : Z := 1.
Definition protocolIPv6ICMP : Z := 58.

(** A Go [map[string]string] literal; indexing a missing key yields the
    zero value, the empty string. *)
Fixpoint map_index (m : list (string * string)) (k : string) : string :=
  match m with
  | [] => EmptyString
  | (k', v) :: m' => if String.eqb k' k then v else map_index m' k
  end.

Definition ipv4Proto : list (string * string) :=
  [("ip", "ip4:icmp"); ("udp", "udp4")]%string.
Definition ipv6Proto : list (string * string) :=
  [("ip", "ip6:ipv6-icmp"); ("udp", "udp6")]%string.

(** The first operand of the [log.Println] call in [listen]; the literal
    ends in a line feed. *)
Definition listen_error_text : string :=
  ("Error listening for ICMP Packets: %s"
   ++ String (Ascii.ascii_of_nat 10) EmptyString)%string.

(** ** The structs (gp.go, lines 27-74) *)

Module Packet.
Record t : Type := mk {
  Rtt : time.Duration;
  IPAddr : option net.IPAddr;
  Addr : string;
  Nbytes : Z;
  Sequence : Z;
  TTL : Z
}.
End Packet.

Module Stats.
Record t : Type := mk {
  PacketsRecieve : Z;
  PacketsSent : Z;
  PacketsLoss : float;
  IPAddr : option net.IPAddr;
  Addr : string;
  Rtts : list time.Duration;
  MinRtt : time.Duration;
  MaxRtt : time.Duration;
  AvgRtt : time.Duration;
  StdDevRtt : time.Duration
}.
End Stats.

(** The [done] channel: only its open/closed status is ever used. *)
Inductive chan : Type := ChanNil | ChanOpen | ChanClosed.

(** A callback is user code; [U] is whatever state that code owns.  A
    callback is taken to return normally and not to write to the engine. *)
Record Pinger (U : Type) : Type := mkPinger {
  Count : Z;
  Debug : bool;
  Interval : time.Duration;
  Timeout : time.Duration;
  PacketsSent : Z;
  PacketsRecieve : Z;
  OnRecieve : option (Packet.t -> U -> U);
  OnFinish : option (Stats.t -> U -> U);
  Size : Z;
  Tracker : Z;
  Source : string;
  done : chan;
  rtts : list time.Duration;
  ipaddr : option net.IPAddr;
  addr : string;
  ipv4 : bool;
  size : Z;
  id : Z;
  sequence : Z;
  network : string
}.

(** Field assignments [p.f = v] used by the code and by its callers. *)
Definition set_done U (p : Pinger U) (c : chan) : Pinger U :=
  mkPinger (Count p) (Debug p) (Interval p) (Timeout p) (PacketsSent p)
    (PacketsRecieve p) (OnRecieve p) (OnFinish p) (Size p) (Tracker p)
    (Source p) c (rtts p) (ipaddr p) (addr p) (ipv4 p) (size p) (id p)
    (sequence p) (network p).

Definition set_Count U (p : Pinger U) (n : Z) : Pinger U :=
  mkPinger n (Debug p) (Interval p) (Timeout p) (PacketsSent p)
    (PacketsRecieve p) (OnRecieve p) (OnFinish p) (Size p) (Tracker p)
    (Source p) (done p) (rtts p) (ipaddr p) (addr p) (ipv4 p) (size p) (id p)
    (sequence p) (network p).

Definition set_Interval U (p : Pinger U) (d : time.Duration) : Pinger U :=
  mkPinger (Count p) (Debug p) d (Timeout p) (PacketsSent p)
    (PacketsRecieve p) (OnRecieve p) (OnFinish p) (Size p) (Tracker p)
    (Source p) (done p) (rtts p) (ipaddr p) (addr p) (ipv4 p) (size p) (id p)
    (sequence p) (network p).

Definition set_OnRecieve U (p : Pinger U) (h : option (Packet.t -> U -> U))
  : Pinger U :=
  mkPinger (Count p) (Debug p) (Interval p) (Timeout p) (PacketsSent p)
    (PacketsRecieve p) h (OnFinish p) (Size p) (Tracker p)
    (Source p) (done p) (rtts p) (ipaddr p) (addr p) (ipv4 p) (size p) (id p)
    (sequence p) (network p).

Definition set_OnFinish U (p : Pinger U) (h : option (Stats.t -> U -> U))
  : Pinger U :=
  mkPinger (Count p) (Debug p) (Interval p) (Timeout p) (PacketsSent p)
    (PacketsRecieve p) (OnRecieve p) h (Size p) (Tracker p)
    (Source p) (done p) (rtts p) (ipaddr p) (addr p) (ipv4 p) (size p) (id p)
    (sequence p) (network p).

Definition set_counters U (p : Pinger U) (sent recv : Z) : Pinger U :=
  mkPinger (Count p) (Debug p) (Interval p) (Timeout p) sent
    recv (OnRecieve p) (OnFinish p) (Size p) (Tracker p)
    (Source p) (done p) (rtts p) (ipaddr p) (addr p) (ipv4 p) (size p) (id p)
    (sequence p) (network p).

Definition set_rtts U (p : Pinger U) (l : list time.Duration) : Pinger U :=
  mkPinger (Count p) (Debug p) (Interval p) (Timeout p) (PacketsSent p)
    (PacketsRecieve p) (OnRecieve p) (OnFinish p) (Size p) (Tracker p)
    (Source p) (done p) l (ipaddr p) (addr p) (ipv4 p) (size p) (id p)
    (sequence p) (network p).

(** ** Effects: a state monad with panics *)

Inductive Res (A : Type) : Type :=
| Val (a : A)
| Panic (msg : string).
Arguments Panic {A} msg.

Definition M (S A : Type) : Type := S -> Res A * S.

Definition ret {S A} (a : A) : M S A := fun s => (Val a, s).

Definition bind {S A B} (c : M S A) (k : A -> M S B) : M S B :=
  fun s => match c s with
           | (Val a, s') => k a s'
           | (Panic msg, s') => (Panic msg, s')
           end.

Definition get {S} : M S S := fun s => (Val s, s).
Definition put {S} (s : S) : M S unit := fun _ => (Val tt, s).
Definition panic {S A} (msg : string) : M S A := fun s => (Panic msg, s).

Declare Scope go_scope.
Delimit Scope go_scope with go.
Notation "x <- c ;; k" := (bind c (fun x => k))
  (at level 61, c at next level, right associativity) : go_scope.
Notation "c ;;; k" := (bind c (fun _ => k))
  (at level 61, right associativity) : go_scope.

(** The control-message flags of packages [ipv4] and [ipv6]. *)
Inductive ControlFlags : Type := FlagTTL | FlagHopLimit.

Inductive Family : Type := IPv4PacketConn | IPv6PacketConn.

(** What the engine does to the outside world, in program order. *)
Inductive Event (Conn : Type) : Type :=
| EvListenPacket (netProto source : string)
| EvLogPrintln (operands : list string)
| EvSetControlMessage (c : Conn) (f : Family) (cf : ControlFlags) (on : bool)
| EvConnClose (c : Conn)
| EvOnRecieve (pkt : Packet.t)
| EvOnFinish (s : Stats.t).
Arguments EvListenPacket {Conn} netProto source.
Arguments EvLogPrintln {Conn} operands.
Arguments EvOnRecieve {Conn} pkt.
Arguments EvOnFinish {Conn} s.

Record World (U Conn : Type) : Type := mkWorld {
  user : U;
  trace : list (Event Conn)
}.

Definition isOnFinish Conn (e : Event Conn) : bool :=
  match e with EvOnFinish _ => true | _ => false end.
Definition isOnRecieve Conn (e : Event Conn) : bool :=
  match e with EvOnRecieve _ => true | _ => false end.

(** Number of completion-callback and per-packet-callback invocations. *)
Definition finish_calls Conn (t : list (Event Conn)) : nat :=
  length (filter (@isOnFinish Conn) t).
Definition recieve_calls Conn (t : list (Event Conn)) : nat :=
  length (filter (@isOnRecieve Conn) t).

(** The sequence numbers handed to the per-packet callback, in order. *)
Fixpoint recieve_sequences Conn (t : list (Event Conn)) : list Z :=
  match t with
  | [] => []
  | EvOnRecieve pkt :: t' => Packet.Sequence pkt :: recieve_sequences t'
  | _ :: t' => recieve_sequences t'
  end.

(** ** The package's functions *)

Section Engine.

Open Scope go_scope.

(** State owned by the callbacks, and connection handles. *)
Variable U : Type.
Variable Conn : Type.

(** [net.ResolveIPAddr(network, address)]. *)
Variable ResolveIPAddr : string -> string -> result net.IPAddr.

(** [icmp.ListenPacket(network, address)]. *)
Variable ListenPacket : string -> string -> result Conn.

(** [math/rand]: a generator built from a seed, and its two draws. *)
Variable Rand : Type.
Variable rand_New : Z -> Rand.
Variable Intn : Rand -> Z -> Z * Rand.
Variable Int63n : Rand -> Z -> Z * Rand.

(** The implementation's result for [int64(f)] when [f] does not fit. *)
Variable int64_undef : float -> Z.

Definition St : Type := (Pinger U * World U Conn)%type.

Definition get_pinger : M St (Pinger U) :=
  st <- get ;; ret (fst st).

Definition emit (e : Event Conn) : M St unit :=
  st <- get ;;
  put (fst st, mkWorld (user (snd st)) (trace (snd st) ++ [e])).

(** Calling a callback: the call is recorded and the user code runs. *)
Definition call (A : Type) (ev : A -> Event Conn) (h : A -> U -> U) (a : A)
  : M St unit :=
  st <- get ;;
  put (fst st, mkWorld (h a (user (snd st))) (trace (snd st) ++ [ev a])).

(** [close(p.done)]: closing a nil or a closed channel panics. *)
Definition close_done : M St unit :=
  st <- get ;;
  match done (fst st) with
  | ChanOpen => put (set_done (fst st) ChanClosed, snd st)
  | ChanClosed => panic "close of closed channel"
  | ChanNil => panic "close of nil channel"
  end.

(** *** isIPv4 (lines 102-104) *)
Definition isIPv4 (ip : net.IP) : bool :=
  Nat.eqb net.IPv4len (length (net.To4 ip)).

(** *** NewPinger (lines 77-100); [now] is [time.Now().UnixNano()]. *)
Definition NewPinger (now : Z) (addr_ : string) : result (Pinger U) :=
  match ResolveIPAddr "ip" addr_ with
  | Err err => Err err
  | Ok ipaddr_ =>
      let ipv4_ := if isIPv4 (net.IP_ ipaddr_) then true else false in
      let r := rand_New now in
      let (id_, r1) := Intn r math.MaxInt16 in
      let (tracker, _) := Int63n r1 math.MaxInt64 in
      Ok {| ipaddr := Some ipaddr_;
            addr := addr_;
            Interval := time.Second;
            Timeout := Int64.mul time.Second 100;
            Count := -1;
            id := id_;
            network := "udp";
            ipv4 := ipv4_;
            size := timeSliceLen;
            Tracker := tracker;
            done := ChanOpen;
            (* fields the literal leaves at their zero value *)
            Debug := false;
            PacketsSent := 0;
            PacketsRecieve := 0;
            OnRecieve := None;
            OnFinish := None;
            Size := 0;
            Source := EmptyString;
            rtts := [];
            sequence := 0 |}
  end.

(** *** GenerateStats (lines 128-164) *)

(** One iteration of the first loop, on [(min, max, total)]. *)
Definition scan_step (acc : Z * Z * Z) (rtt : time.Duration) : Z * Z * Z :=
  let '(min, max, total) := acc in
  (if rtt <? min then rtt else min,
   if rtt >? max then rtt else max,
   Int64.add total rtt).

(** One iteration of the second loop, on [sumSquares]. *)
Definition square_step (avg : time.Duration) (sumSquares : Z)
  (rtt : time.Duration) : Z :=
  Int64.add sumSquares (Int64.mul (Int64.sub rtt avg) (Int64.sub rtt avg)).

Definition len (l : list time.Duration) : Z := Z.of_nat (length l).

Definition GenerateStats (p : Pinger U) : Stats.t :=
  let loss :=
    PrimFloat.mul
      (PrimFloat.div
         (Float64.of_int (Int64.sub (PacketsSent p) (PacketsRecieve p)))
         (Float64.of_int (PacketsSent p)))
      100%float in
  let '(min0, max0) :=
    match rtts p with
    | rtt0 :: _ => (rtt0, rtt0)
    | [] => (0, 0)
    end in
  let '(min, max, total) := fold_left scan_step (rtts p) (min0, max0, 0) in
  let '(avg, stddev) :=
    if 0 <? len (rtts p) then
      let avg := Int64.quot total (len (rtts p)) in
      let sumSquares := fold_left (square_step avg) (rtts p) 0 in
      (avg,
       Float64.to_int64 int64_undef
         (math.Sqrt
            (Float64.of_int (Int64.quot sumSquares (len (rtts p))))))
    else (0, 0) in
  {| Stats.PacketsSent := PacketsSent p;
     Stats.PacketsRecieve := PacketsRecieve p;
     Stats.PacketsLoss := loss;
     Stats.Rtts := rtts p;
     Stats.Addr := addr p;
     Stats.IPAddr := ipaddr p;
     Stats.MaxRtt := max;
     Stats.MinRtt := min;
     Stats.AvgRtt := avg;
     Stats.StdDevRtt := stddev |}.

(** The method as it is called: through the receiver [p]. *)
Definition GenerateStats_ : M St Stats.t :=
  p <- get_pinger ;; ret (GenerateStats p).

(** *** finish (lines 167-173) *)
Definition finish : M St unit :=
  p <- get_pinger ;;
  let handler := OnFinish p in
  match handler with
  | Some h => s <- GenerateStats_ ;; call (@EvOnFinish Conn) h s
  | None => ret tt
  end.

(** *** listen (lines 175-183); [None] is the nil connection. *)
Definition listen (netProto : string) : M St (option Conn) :=
  p <- get_pinger ;;
  emit (EvListenPacket netProto (Source p)) ;;;
  match ListenPacket netProto (Source p) with
  | Err err =>
      emit (EvLogPrintln [listen_error_text; err]) ;;;
      close_done ;;;
      ret None
  | Ok conn => ret (Some conn)
  end.

(** *** Run (lines 106-123).  The two deferred calls run when the
    function returns, last registered first: [p.finish()], then
    [conn.Close()]. *)
Definition Run : M St unit :=
  p <- get_pinger ;;
  if ipv4 p then
    conn <- listen (map_index ipv4Proto (network p)) ;;
    match conn with
    | None => ret tt
    | Some c =>
        emit (EvSetControlMessage c IPv4PacketConn FlagTTL true) ;;;
        finish ;;;
        emit (EvConnClose c)
    end
  else
    conn <- listen (map_index ipv6Proto (network p)) ;;
    match conn with
    | None => ret tt
    | Some c =>
        emit (EvSetControlMessage c IPv6PacketConn FlagHopLimit true) ;;;
        finish ;;;
        emit (EvConnClose c)
    end.

End Engine.

(** The protocol string [Run] hands to [listen]. *)
Definition netProto_of U (p : Pinger U) : string :=
  map_index (if ipv4 p then ipv4Proto else ipv6Proto) (network p).

Definition family_of U (p : Pinger U) : Family :=
  if ipv4 p then IPv4PacketConn else IPv6PacketConn.

Definition flag_of U (p : Pinger U) : ControlFlags :=
  if ipv4 p then FlagTTL else FlagHopLimit.

(** What the deferred [p.finish()] adds to the trace, and what it does to
    the callbacks' state. *)
Definition finish_events U (Conn : Type) (int64_undef : float -> Z)
  (p : Pinger U) : list (Event Conn) :=
  match OnFinish p with
  | Some _ => [EvOnFinish (GenerateStats int64_undef p)]
  | None => []
  end.

Definition finish_user U (int64_undef : float -> Z) (p : Pinger U) (u : U)
  : U :=
  match OnFinish p with
  | Some h => h (GenerateStats int64_undef p) u
  | None => u
  end.

(** ** Reference notions the statements are measured against *)

Definition sum (l : list Z) : Z := fold_right Z.add 0 l.

(** Sum of the squared deviations of [l] from [a]. *)
Definition sum_sq_dev (a : Z) (l : list Z) : Z :=
  fold_right (fun x acc => (x - a) * (x - a) + acc) 0 l.

Definition is_minimum (l : list Z) (m : Z) : Prop :=
  In m l /\ Forall (fun x => m <= x) l.

Definition is_maximum (l : list Z) (m : Z) : Prop :=
  In m l /\ Forall (fun x => x <= m) l.

(** [a] is the arithmetic mean of [l], exactly. *)
Definition is_arithmetic_mean (l : list Z) (a : Z) : Prop :=
  a * len l = sum l.

(** [s] is the whole-nanosecond part of the population standard deviation
    of [l] around [a]: [s <= sqrt (sum_sq_dev a l / len l) < s + 1]. *)
Definition is_population_stddev (l : list Z) (a s : Z) : Prop :=
  0 <= s /\
  s * s * len l <= sum_sq_dev a l < (s + 1) * (s + 1) * len l.

(** [s] is the statistics snapshot of engine [p], field by field: the
    counters, samples and address are the engine's; the loss is
    [(sent - received) / sent * 100] in [float64], the difference reduced
    to an [int64]; without samples the four RTT figures are 0; with samples
    the minimum and maximum are those of the samples, the average is their
    [int64] sum divided by their number, and the standard deviation is the
    [float64] root of the [int64] sum of squared deviations from the
    average divided by their number. *)
Definition is_snapshot_of U (int64_undef : float -> Z) (p : Pinger U)
  (s : Stats.t) : Prop :=
  Stats.PacketsSent s = PacketsSent p /\
  Stats.PacketsRecieve s = PacketsRecieve p /\
  Stats.PacketsLoss s =
    PrimFloat.mul
      (PrimFloat.div
         (Float64.of_int (Int64.wrap (PacketsSent p - PacketsRecieve p)))
         (Float64.of_int (PacketsSent p)))
      100%float /\
  Stats.Rtts s = rtts p /\
  Stats.Addr s = addr p /\
  Stats.IPAddr s = ipaddr p /\
  match rtts p with
  | [] =>
      Stats.MinRtt s = 0 /\ Stats.MaxRtt s = 0 /\
      Stats.AvgRtt s = 0 /\ Stats.StdDevRtt s = 0
  | _ :: _ =>
      is_minimum (rtts p) (Stats.MinRtt s) /\
      is_maximum (rtts p) (Stats.MaxRtt s) /\
      Stats.AvgRtt s = Z.quot (Int64.wrap (sum (rtts p))) (len (rtts p)) /\
      Stats.StdDevRtt s =
        Float64.to_int64 int64_undef
          (math.Sqrt
             (Float64.of_int
                (Z.quot
                   (Int64.wrap (sum_sq_dev (Stats.AvgRtt s) (rtts p)))
                   (len (rtts p)))))
  end.

(** The mean in whole nanoseconds, fraction discarded. *)
Definition truncated_mean (l : list Z) : Z := Z.quot (sum l) (len l).

(** The loss percentage in [float64] arithmetic, counts taken as exact
    integers. *)
Definition loss_percent (N R : Z) : float :=
  PrimFloat.mul
    (PrimFloat.div (Float64.of_int (N - R)) (Float64.of_int N)) 100%float.

(** ** Test doubles for the collaborators *)

Module Fake.

Definition loopback : net.IPAddr :=
  net.mkIPAddr [Byte.x7f; Byte.x00; Byte.x00; Byte.x01] EmptyString.

(** A resolver that knows one host. *)
Definition resolve (network_ address : string) : result net.IPAddr :=
  if String.eqb address "localhost" then Ok loopback
  else Err ("lookup " ++ address ++ ": no such host")%string.

(** A transport whose listener is always acquired; handle 0. *)
Definition echo_listen (network_ address : string) : result nat :=
  Ok 0%nat.

(** A transport whose listener is never acquired. *)
Definition deny_listen (network_ address : string) : result nat :=
  Err "socket: operation not permitted"%string.

(** A counter standing in for the random generator. *)
Definition rand_New (seed : Z) : Z := seed.
Definition Intn (r n : Z) : Z * Z := (r mod n, r + 1).
Definition Int63n (r n : Z) : Z * Z := (r mod n, r + 1).

(** amd64: an out-of-range conversion yields the smallest [int64]. *)
Definition int64_undef (f : float) : Z := Int64.min_int.

(** Callbacks that count their invocations. *)
Definition count_packet (pkt : Packet.t) (n : nat) : nat := S n.
Definition count_finish (s : Stats.t) (n : nat) : nat := S n.

(** [NewPinger("localhost")] at clock reading 0. *)
Definition fresh : Pinger nat :=
  {| Count := -1; Debug := false;
     Interval := 1000000000; Timeout := 100000000000;
     PacketsSent := 0; PacketsRecieve := 0;
     OnRecieve := None; OnFinish := None;
     Size := 0; Tracker := 1; Source := EmptyString;
     done := ChanOpen; rtts := [];
     ipaddr := Some loopback; addr := "localhost";
     ipv4 := true; size := 8; id := 0; sequence := 0;
     network := "udp" |}.

(** Scenario A: count 5, interval 10ms, both callbacks installed. *)
Definition scenarioA : Pinger nat :=
  set_OnFinish
    (set_OnRecieve (set_Interval (set_Count fresh 5) 10000000)
       (Some count_packet))
    (Some count_finish).

Definition world0 : World nat nat := mkWorld 0%nat [].

Definition run (listener : string -> string -> result nat)
  (p : Pinger nat) : Res unit * (Pinger nat * World nat nat) :=
  Run listener int64_undef (p, world0).

Definition pinger_after (listener : string -> string -> result nat)
  (p : Pinger nat) : Pinger nat := fst (snd (run listener p)).

Definition world_after (listener : string -> string -> result nat)
  (p : Pinger nat) : World nat nat := snd (snd (run listener p)).

Definition stats (p : Pinger nat) : Stats.t := GenerateStats int64_undef p.

Definition new (address : string) : result (Pinger nat) :=
  NewPinger nat resolve rand_New Intn Int63n 0 address.

(** Two round trips, 0s and 8.589934593s. *)
Definition spread : list time.Duration := [0; 8589934593].

(** [::ffff:127.0.0.1], the 16-byte form of the loopback address. *)
Definition mapped_loopback : net.IP :=
  [Byte.x00; Byte.x00; Byte.x00; Byte.x00; Byte.x00; Byte.x00; Byte.x00;
   Byte.x00; Byte.x00; Byte.x00; Byte.xff; Byte.xff;
   Byte.x7f; Byte.x00; Byte.x00; Byte.x01].

(** [::1], the IPv6 loopback address. *)
Definition loopback6 : net.IPAddr :=
  net.mkIPAddr
    [Byte.x00; Byte.x00; Byte.x00; Byte.x00; Byte.x00; Byte.x00; Byte.x00;
     Byte.x00; Byte.x00; Byte.x00; Byte.x00; Byte.x00;
     Byte.x00; Byte.x00; Byte.x00; Byte.x01] EmptyString.

(** A resolver that knows two hosts, one of each family. *)
Definition resolve_two (network_ address : string) : result net.IPAddr :=
  if String.eqb address "localhost" then Ok loopback
  else if String.eqb address "ip6-localhost" then Ok loopback6
  else Err ("lookup " ++ address ++ ": no such host")%string.

Definition new_two (address : string) : result (Pinger nat) :=
  NewPinger nat resolve_two rand_New Intn Int63n 0 address.

(** [NewPinger("ip6-localhost")] at clock reading 0. *)
Definition fresh6 : Pinger nat :=
  {| Count := -1; Debug := false;
     Interval := 1000000000; Timeout := 100000000000;
     PacketsSent := 0; PacketsRecieve := 0;
     OnRecieve := None; OnFinish := None;
     Size := 0; Tracker := 1; Source := EmptyString;
     done := ChanOpen; rtts := [];
     ipaddr := Some loopback6; addr := "ip6-localhost";
     ipv4 := false; size := 8; id := 0; sequence := 0;
     network := "udp" |}.

(** Three round trips of 7ns each. *)
Definition steady : Pinger nat := set_rtts fresh [7; 7; 7].

(** Scenario A with a nil [done] channel, as in a [Pinger] literal. *)
Definition scenarioA_nil : Pinger nat := set_done scenarioA ChanNil.

(** Three round trips of 10ns, 20ns and 60ns; five sent, three back. *)
Definition sampled : Pinger nat :=
  set_rtts (set_counters fresh 5 3) [10; 20; 60].

End Fake.

(** ** Further notions for the properties of the remaining code *)

Definition isConnClose Conn (e : Event Conn) : bool :=
  match e with EvConnClose _ => true | _ => false end.
Definition isSetControlMessage Conn (e : Event Conn) : bool :=
  match e with EvSetControlMessage _ _ _ _ => true | _ => false end.
Definition isListenPacket Conn (e : Event Conn) : bool :=
  match e with EvListenPacket _ _ => true | _ => false end.

(** Number of [conn.Close()], [SetControlMessage] and [icmp.ListenPacket]
    calls in a trace. *)
Definition close_calls Conn (t : list (Event Conn)) : nat :=
  length (filter (@isConnClose Conn) t).
Definition control_calls Conn (t : list (Event Conn)) : nat :=
  length (filter (@isSetControlMessage Conn) t).
Definition listen_calls Conn (t : list (Event Conn)) : nat :=
  length (filter (@isListenPacket Conn) t).

(** Two calls of [p.Run()] in a row. *)
Definition Run_twice U Conn (ListenPacket : string -> string -> result Conn)
  (int64_undef : float -> Z) : M (St U Conn) unit :=
  bind (Run ListenPacket int64_undef)
    (fun _ => Run ListenPacket int64_undef).

(** A 16-byte address that carries an IPv4 address: ten zero bytes, two
    [0xff] bytes, then the four address bytes. *)
Definition is4in6 (ip : net.IP) : bool :=
  Nat.eqb (length ip) net.IPv6len
  && net.isZeros (firstn 10 ip)
  && Byte.eqb (nth 10 ip Byte.x00) Byte.xff
  && Byte.eqb (nth 11 ip Byte.x00) Byte.xff.

(** The contract of [rand.Intn] and [rand.Int63n]: for [n > 0] the draw
    lies in [[0, n)]. *)
Definition draws_below Rand (draw : Rand -> Z -> Z * Rand) : Prop :=
  forall (r : Rand) (n : Z), 0 < n -> 0 <= fst (draw r n) < n.

(** * Facts *)

(** ** Wrap-around arithmetic *)

Ltac int64_unfold :=
  unfold Int64.in_range, Int64.wrap, Int64.min_int, Int64.max_int,
    Int64.half, Int64.modulus in *.

Lemma Int64_wrap_small (z : Z) : Int64.in_range z -> Int64.wrap z = z.
Proof.
  int64_unfold. intros H.
  rewrite Z.mod_small by lia. lia.
Qed.

Lemma Int64_wrap_range (z : Z) : Int64.in_range (Int64.wrap z).
Proof.
  int64_unfold.
  pose proof (Z.mod_pos_bound (z + 2 ^ 63) (2 ^ 64)). lia.
Qed.

Lemma Int64_wrap_shift (z k : Z) :
  Int64.wrap (z + k * Int64.modulus) = Int64.wrap z.
Proof.
  unfold Int64.wrap.
  replace (z + k * Int64.modulus + Int64.half)
    with (z + Int64.half + k * Int64.modulus) by ring.
  now rewrite Z_mod_plus_full.
Qed.

Lemma Int64_wrap_eq (z : Z) : exists k, Int64.wrap z = z + k * Int64.modulus.
Proof.
  exists (- ((z + Int64.half) / Int64.modulus)).
  unfold Int64.wrap.
  rewrite Z.mod_eq by (unfold Int64.modulus; lia). ring.
Qed.

Lemma Int64_wrap_add_l (a b : Z) :
  Int64.wrap (Int64.wrap a + b) = Int64.wrap (a + b).
Proof.
  destruct (Int64_wrap_eq a) as [k ->].
  replace (a + k * Int64.modulus + b) with (a + b + k * Int64.modulus) by ring.
  apply Int64_wrap_shift.
Qed.

Lemma Int64_wrap_add_r (a b : Z) :
  Int64.wrap (a + Int64.wrap b) = Int64.wrap (a + b).
Proof.
  rewrite Z.add_comm, Int64_wrap_add_l. f_equal. ring.
Qed.

Lemma Int64_wrap_mul (a b : Z) :
  Int64.wrap (Int64.wrap a * Int64.wrap b) = Int64.wrap (a * b).
Proof.
  destruct (Int64_wrap_eq a) as [k ->].
  destruct (Int64_wrap_eq b) as [j ->].
  replace ((a + k * Int64.modulus) * (b + j * Int64.modulus))
    with (a * b + (a * j + k * b + k * j * Int64.modulus) * Int64.modulus)
    by ring.
  apply Int64_wrap_shift.
Qed.

Lemma Int64_sub_exact (a b : Z) :
  Int64.in_range (a - b) -> Int64.sub a b = a - b.
Proof. apply Int64_wrap_small. Qed.

Lemma Int64_quot_exact (a n : Z) :
  Int64.in_range a -> 0 < n -> Int64.quot a n = Z.quot a n.
Proof.
  intros Ha Hn. apply Int64_wrap_small.
  assert (Hq : Z.min a 0 <= Z.quot a n <= Z.max a 0).
  { pose proof (Z.quot_rem' a n) as E.
    destruct (Z_le_gt_dec 0 a) as [Hpos | Hneg].
    - pose proof (Z.rem_bound_pos a n Hpos Hn) as Hr.
      pose proof (Z.quot_pos a n Hpos Hn) as Hq.
      revert E Hr Hq. generalize (Z.quot a n) (Z.rem a n). intros q r E Hr Hq.
      assert (0 <= (n - 1) * q) by (apply Z.mul_nonneg_nonneg; lia). lia.
    - assert (Hle : a <= 0) by lia.
      pose proof (Z.rem_bound_pos_neg a n Hn Hle) as Hr.
      revert E Hr. generalize (Z.quot a n) (Z.rem a n). intros q r E Hr.
      assert (q <= 0) by nia.
      assert (0 <= (n - 1) * (- q)) by (apply Z.mul_nonneg_nonneg; lia).
      lia. }
  int64_unfold. lia.
Qed.

(** ** The two loops of GenerateStats *)

Lemma scan_step_eq (mn mx t x : Z) :
  scan_step (mn, mx, t) x = (Z.min mn x, Z.max mx x, Int64.add t x).
Proof.
  cbv beta iota delta [scan_step]. rewrite Z.gtb_ltb.
  destruct (Z.ltb_spec x mn), (Z.ltb_spec mx x);
    repeat (apply f_equal2; try reflexivity); lia.
Qed.

Lemma scan_step_fold (l : list Z) (mn mx t : Z) :
  fold_left scan_step l (mn, mx, t) =
  (fold_left Z.min l mn, fold_left Z.max l mx, fold_left Int64.add l t).
Proof.
  revert mn mx t. induction l as [| x l IH]; intros mn mx t.
  - reflexivity.
  - cbn [fold_left]. now rewrite scan_step_eq, IH.
Qed.

Lemma fold_min_le_init (l : list Z) (m : Z) : fold_left Z.min l m <= m.
Proof.
  revert m. induction l as [| x l IH]; intros m; simpl; [lia |].
  specialize (IH (Z.min m x)). lia.
Qed.

Lemma fold_min_lower (l : list Z) (m : Z) :
  Forall (fun x => fold_left Z.min l m <= x) l.
Proof.
  revert m. induction l as [| x l IH]; intros m; simpl; constructor.
  - pose proof (fold_min_le_init l (Z.min m x)). lia.
  - apply IH.
Qed.

Lemma fold_min_attained (l : list Z) (m : Z) :
  fold_left Z.min l m = m \/ In (fold_left Z.min l m) l.
Proof.
  revert m. induction l as [| x l IH]; intros m; simpl; [now left |].
  destruct (IH (Z.min m x)) as [E | HIn]; [| now right; right].
  rewrite E. destruct (Z.min_spec m x) as [[_ ->] | [_ ->]]; auto.
Qed.

Lemma fold_max_ge_init (l : list Z) (m : Z) : m <= fold_left Z.max l m.
Proof.
  revert m. induction l as [| x l IH]; intros m; simpl; [lia |].
  specialize (IH (Z.max m x)). lia.
Qed.

Lemma fold_max_upper (l : list Z) (m : Z) :
  Forall (fun x => x <= fold_left Z.max l m) l.
Proof.
  revert m. induction l as [| x l IH]; intros m; simpl; constructor.
  - pose proof (fold_max_ge_init l (Z.max m x)). lia.
  - apply IH.
Qed.

Lemma fold_max_attained (l : list Z) (m : Z) :
  fold_left Z.max l m = m \/ In (fold_left Z.max l m) l.
Proof.
  revert m. induction l as [| x l IH]; intros m; simpl; [now left |].
  destruct (IH (Z.max m x)) as [E | HIn]; [| now right; right].
  rewrite E. destruct (Z.max_spec m x) as [[_ ->] | [_ ->]]; auto.
Qed.

Lemma fold_add_wrap (l : list Z) (t : Z) :
  Int64.in_range t -> fold_left Int64.add l t = Int64.wrap (t + sum l).
Proof.
  revert t. induction l as [| x l IH]; intros t Ht; simpl.
  - rewrite Z.add_0_r. symmetry. now apply Int64_wrap_small.
  - rewrite IH by apply Int64_wrap_range.
    unfold Int64.add. rewrite Int64_wrap_add_l. f_equal. ring.
Qed.

Lemma square_step_wrap (a ss x : Z) :
  square_step a ss x = Int64.wrap (ss + (x - a) * (x - a)).
Proof.
  unfold square_step, Int64.add, Int64.mul, Int64.sub.
  now rewrite Int64_wrap_mul, Int64_wrap_add_r.
Qed.

Lemma fold_square_wrap (a : Z) (l : list Z) (ss : Z) :
  Int64.in_range ss ->
  fold_left (square_step a) l ss = Int64.wrap (ss + sum_sq_dev a l).
Proof.
  revert ss. induction l as [| x l IH]; intros ss Hss; simpl.
  - rewrite Z.add_0_r. symmetry. now apply Int64_wrap_small.
  - rewrite square_step_wrap, IH by apply Int64_wrap_range.
    rewrite Int64_wrap_add_l. f_equal. ring.
Qed.

Lemma Int64_zero_in_range : Int64.in_range 0.
Proof. int64_unfold. lia. Qed.

Lemma len_pos (x : Z) (l : list Z) : 0 < len (x :: l).
Proof. unfold len. simpl length. lia. Qed.

(** ** GenerateStats, field by field *)

Section StatsFacts.

Variable U : Type.
Variable int64_undef : float -> Z.

Ltac stats_unfold p :=
  unfold GenerateStats;
  destruct (rtts p) as [| x l];
  [ reflexivity
  | rewrite scan_step_fold;
    cbv beta iota;
    destruct (Z.ltb_spec 0 (len (x :: l))) as [_ | Hlen];
    [ reflexivity
    | exfalso; exact (proj1 (Z.lt_nge _ _) (len_pos x l) Hlen) ] ].

Lemma GenerateStats_MinRtt (p : Pinger U) :
  Stats.MinRtt (GenerateStats int64_undef p) =
  fold_left Z.min (rtts p) (hd 0 (rtts p)).
Proof. stats_unfold p. Qed.

Lemma GenerateStats_MaxRtt (p : Pinger U) :
  Stats.MaxRtt (GenerateStats int64_undef p) =
  fold_left Z.max (rtts p) (hd 0 (rtts p)).
Proof. stats_unfold p. Qed.

Lemma GenerateStats_AvgRtt (p : Pinger U) :
  Stats.AvgRtt (GenerateStats int64_undef p) =
  match rtts p with
  | [] => 0
  | _ :: _ => Int64.quot (fold_left Int64.add (rtts p) 0) (len (rtts p))
  end.
Proof. stats_unfold p. Qed.

Lemma GenerateStats_StdDevRtt (p : Pinger U) :
  Stats.StdDevRtt (GenerateStats int64_undef p) =
  match rtts p with
  | [] => 0
  | _ :: _ =>
      let avg := Stats.AvgRtt (GenerateStats int64_undef p) in
      Float64.to_int64 int64_undef
        (math.Sqrt
           (Float64.of_int
              (Int64.quot (fold_left (square_step avg) (rtts p) 0)
                 (len (rtts p)))))
  end.
Proof.
  rewrite GenerateStats_AvgRtt. stats_unfold p.
Qed.

Lemma GenerateStats_PacketsLoss (p : Pinger U) :
  Stats.PacketsLoss (GenerateStats int64_undef p) =
  PrimFloat.mul
    (PrimFloat.div
       (Float64.of_int (Int64.sub (PacketsSent p) (PacketsRecieve p)))
       (Float64.of_int (PacketsSent p)))
    100%float.
Proof. stats_unfold p. Qed.

Lemma GenerateStats_set_done (p : Pinger U) (c : chan) :
  GenerateStats int64_undef (set_done p c) = GenerateStats int64_undef p.
Proof. reflexivity. Qed.

End StatsFacts.

(** ** Counting callbacks in a trace *)

Lemma finish_calls_app Conn (t1 t2 : list (Event Conn)) :
  finish_calls (t1 ++ t2) = (finish_calls t1 + finish_calls t2)%nat.
Proof. unfold finish_calls. now rewrite filter_app, length_app. Qed.

Lemma recieve_calls_app Conn (t1 t2 : list (Event Conn)) :
  recieve_calls (t1 ++ t2) = (recieve_calls t1 + recieve_calls t2)%nat.
Proof. unfold recieve_calls. now rewrite filter_app, length_app. Qed.

Lemma recieve_sequences_app Conn (t1 t2 : list (Event Conn)) :
  recieve_sequences (t1 ++ t2) = recieve_sequences t1 ++ recieve_sequences t2.
Proof.
  induction t1 as [| e t1 IH]; [reflexivity |].
  destruct e; simpl; now rewrite ?IH.
Qed.

(** ** listen, finish and Run, run to completion *)

Section RunFacts.

Variable U : Type.
Variable Conn : Type.
Variable ListenPacket : string -> string -> result Conn.
Variable int64_undef : float -> Z.


Lemma finish_eq (p : Pinger U) (w : World U Conn) :
  finish int64_undef (p, w) =
  (Val tt, (p, mkWorld (finish_user int64_undef p (user w))
                 (trace w ++ finish_events Conn int64_undef p))).
Proof.
  unfold finish, finish_user, finish_events, bind, get_pinger,
    GenerateStats_, call, get, put, ret, bind.
  cbn [fst snd]. destruct (OnFinish p); cbn [fst snd].
  - reflexivity.
  - rewrite app_nil_r. now destruct w.
Qed.

Lemma listen_acquired (p : Pinger U) (w : World U Conn)
  (netProto : string) (c : Conn) :
  ListenPacket netProto (Source p) = Ok c ->
  listen ListenPacket netProto (p, w) =
  (Val (Some c),
   (p, mkWorld (user w) (trace w ++ [EvListenPacket netProto (Source p)]))).
Proof.
  intros H.
  unfold listen, bind, get_pinger, emit, get, put, ret, bind.
  cbn [fst snd user trace]. now rewrite H.
Qed.

Lemma listen_unavailable (p : Pinger U) (w : World U Conn)
  (netProto : string) (e : error) :
  ListenPacket netProto (Source p) = Err e ->
  let w' := mkWorld (user w)
              (trace w ++
               [EvListenPacket netProto (Source p);
                EvLogPrintln
                  [listen_error_text; e]]) in
  listen ListenPacket netProto (p, w) =
  match done p with
  | ChanOpen => (Val None, (set_done p ChanClosed, w'))
  | ChanClosed => (Panic "close of closed channel", (p, w'))
  | ChanNil => (Panic "close of nil channel", (p, w'))
  end.
Proof.
  intros H.
  unfold listen, close_done, bind, get_pinger, emit, get, put, ret, bind,
    panic.
  cbn [fst snd user trace]. rewrite H. cbn [fst snd user trace].
  rewrite <- app_assoc. cbn [app].
  now destruct (done p).
Qed.

Lemma Run_acquired (p : Pinger U) (w : World U Conn) (c : Conn) :
  ListenPacket (netProto_of p) (Source p) = Ok c ->
  Run ListenPacket int64_undef (p, w) =
  (Val tt,
   (p, mkWorld (finish_user int64_undef p (user w))
         (trace w ++
          [EvListenPacket (netProto_of p) (Source p);
           EvSetControlMessage c (family_of p) (flag_of p) true] ++
          finish_events Conn int64_undef p ++ [EvConnClose c]))).
Proof.
  unfold netProto_of, family_of, flag_of. intros H.
  unfold Run. unfold bind at 1. unfold get_pinger at 1.
  unfold bind at 1. unfold get, ret. cbn [fst snd].
  destruct (ipv4 p);
    unfold bind at 1; rewrite (listen_acquired _ _ H);
    unfold bind at 1; unfold emit at 1; unfold bind at 1; unfold get, put;
    cbn [fst snd user trace];
    unfold bind at 1; rewrite finish_eq;
    unfold emit, bind, get, put; cbn [fst snd user trace];
    rewrite <- !app_assoc; reflexivity.
Qed.

Lemma Run_unavailable (p : Pinger U) (w : World U Conn) (e : error) :
  ListenPacket (netProto_of p) (Source p) = Err e ->
  let w' := mkWorld (user w)
              (trace w ++
               [EvListenPacket (netProto_of p) (Source p);
                EvLogPrintln
                  [listen_error_text; e]]) in
  Run ListenPacket int64_undef (p, w) =
  match done p with
  | ChanOpen => (Val tt, (set_done p ChanClosed, w'))
  | ChanClosed => (Panic "close of closed channel", (p, w'))
  | ChanNil => (Panic "close of nil channel", (p, w'))
  end.
Proof.
  unfold netProto_of. intros H.
  unfold Run. unfold bind at 1. unfold get_pinger at 1.
  unfold bind at 1. unfold get, ret. cbn [fst snd].
  destruct (ipv4 p);
    unfold bind at 1; rewrite (listen_unavailable _ _ H);
    destruct (done p); reflexivity.
Qed.

End RunFacts.

(** * The claims *)

Section RunClaims.

Variable U : Type.
Variable Conn : Type.
Variable ListenPacket : string -> string -> result Conn.
Variable int64_undef : float -> Z.

(** C1 (as amended).  With count = 5 and a transport whose listener is
    acquired, [Run] returns normally and has sent nothing: the sent and
    received counters, the sequence number and the RTT samples are what
    they were before the call, and the per-packet callback has not
    fired. *)
Theorem Run_count5_sends_nothing
  (p : Pinger U) (w : World U Conn) (c : Conn) :
  Count p = 5 ->
  ListenPacket (netProto_of p) (Source p) = Ok c ->
  let out := Run ListenPacket int64_undef (p, w) in
  fst out = Val tt /\
  PacketsSent (fst (snd out)) = PacketsSent p /\
  PacketsRecieve (fst (snd out)) = PacketsRecieve p /\
  sequence (fst (snd out)) = sequence p /\
  rtts (fst (snd out)) = rtts p /\
  recieve_calls (trace (snd (snd out))) = recieve_calls (trace w) /\
  recieve_sequences (trace (snd (snd out))) = recieve_sequences (trace w).
Proof.
  intros _ Hlisten out. subst out.
  rewrite (Run_acquired ListenPacket int64_undef p w Hlisten). cbn [fst snd trace].
  repeat split.
  - rewrite recieve_calls_app.
    unfold finish_events. destruct (OnFinish p); cbn; lia.
  - rewrite recieve_sequences_app.
    unfold finish_events. destruct (OnFinish p); cbn; apply app_nil_r.
Qed.

(** C2 (as amended).  When the listener cannot be acquired, [Run] logs the
    error and closes the [done] channel, and that is all: nothing is sent,
    the counters keep their values, and the completion callback is not
    invoked.  On an open [done] channel the call returns normally. *)
Theorem Run_unavailable_skips_finish
  (p : Pinger U) (w : World U Conn) (e : error) :
  ListenPacket (netProto_of p) (Source p) = Err e ->
  let out := Run ListenPacket int64_undef (p, w) in
  trace (snd (snd out)) =
    trace w ++
    [EvListenPacket (netProto_of p) (Source p);
     EvLogPrintln [listen_error_text; e]] /\
  user (snd (snd out)) = user w /\
  finish_calls (trace (snd (snd out))) = finish_calls (trace w) /\
  PacketsSent (fst (snd out)) = PacketsSent p /\
  PacketsRecieve (fst (snd out)) = PacketsRecieve p /\
  (done p = ChanOpen ->
   fst out = Val tt /\ done (fst (snd out)) = ChanClosed).
Proof.
  intros Hlisten out. subst out.
  rewrite (Run_unavailable ListenPacket int64_undef p w Hlisten).
  destruct (done p) eqn:Hdone; cbn [fst snd trace user];
    rewrite finish_calls_app; cbn;
    repeat split; try reflexivity; try lia; try discriminate.
Qed.

(** C10.  With no completion callback installed, [finish] returns
    normally, calls nothing and leaves the engine, the callbacks' state
    and the trace exactly as they were. *)
Theorem finish_nil_OnFinish (p : Pinger U) (w : World U Conn) :
  OnFinish p = None ->
  finish int64_undef (p, w) = (Val tt, (p, w)).
Proof.
  intros H. rewrite finish_eq. unfold finish_user, finish_events.
  rewrite H, app_nil_r. now destruct w.
Qed.

(** C9.  [GenerateStats] only reads its receiver: called in any state it
    returns normally and leaves the whole state (every field of the
    engine included) unchanged, and two calls in a row return the same
    snapshot. *)
Theorem GenerateStats_reads_only (st : St U Conn) :
  exists s : Stats.t,
    GenerateStats_ int64_undef st = (Val s, st) /\
    bind (GenerateStats_ int64_undef)
      (fun s1 => bind (GenerateStats_ int64_undef)
                   (fun s2 => ret (s1, s2))) st
    = (Val (s, s), st).
Proof.
  exists (GenerateStats int64_undef (fst st)).
  destruct st as [p w]. split; reflexivity.
Qed.

End RunClaims.

Section StatsClaims.

Variable U : Type.
Variable int64_undef : float -> Z.

(** C3 (evaluation of the code).  With no RTT sample recorded the snapshot
    reports 0 for the minimum, maximum, average and standard deviation;
    but when the sent and received counters are both 0 the loss
    percentage it reports is NaN. *)
Theorem GenerateStats_no_samples (p : Pinger U) :
  rtts p = [] ->
  let s := GenerateStats int64_undef p in
  (Stats.MinRtt s = 0 /\ Stats.MaxRtt s = 0 /\
   Stats.AvgRtt s = 0 /\ Stats.StdDevRtt s = 0) /\
  (PacketsSent p = 0 -> PacketsRecieve p = 0 ->
   PrimFloat.is_nan (Stats.PacketsLoss s) = true).
Proof.
  intros Hnil s. subst s. split.
  - rewrite GenerateStats_MinRtt, GenerateStats_MaxRtt,
      GenerateStats_StdDevRtt, GenerateStats_AvgRtt, Hnil.
    repeat split.
  - intros Hs Hr. rewrite GenerateStats_PacketsLoss, Hs, Hr.
    reflexivity.
Qed.

(** C5.  With [N > 0] packets sent and [R] received, the loss percentage
    of the snapshot is [(N - R) / N * 100], computed in [float64] from the
    exact integer difference [N - R]. *)
Theorem GenerateStats_loss (p : Pinger U) :
  0 < PacketsSent p <= Int64.max_int ->
  0 <= PacketsRecieve p <= Int64.max_int ->
  Stats.PacketsLoss (GenerateStats int64_undef p) =
  loss_percent (PacketsSent p) (PacketsRecieve p).
Proof.
  intros HN HR. rewrite GenerateStats_PacketsLoss. unfold loss_percent.
  rewrite Int64_sub_exact; [reflexivity |].
  int64_unfold. lia.
Qed.

(** C6 (as amended).  For a non-empty sample sequence, [MinRtt] and
    [MaxRtt] are the minimum and the maximum of the samples.  When the
    sum of the samples fits in an [int64], [AvgRtt] is their mean in
    whole nanoseconds, the fraction discarded; when moreover the sum of
    the squared deviations from [AvgRtt] fits in an [int64], [StdDevRtt]
    is the [float64] square root of the whole-number mean of those
    squares, converted back to whole nanoseconds. *)
Theorem GenerateStats_rtt_summary (p : Pinger U) :
  rtts p <> [] ->
  let l := rtts p in
  let s := GenerateStats int64_undef p in
  is_minimum l (Stats.MinRtt s) /\
  is_maximum l (Stats.MaxRtt s) /\
  (Int64.in_range (sum l) ->
   Stats.AvgRtt s = truncated_mean l /\
   (Int64.in_range (sum_sq_dev (truncated_mean l) l) ->
    Stats.StdDevRtt s =
    Float64.to_int64 int64_undef
      (math.Sqrt
         (Float64.of_int
            (Z.quot (sum_sq_dev (truncated_mean l) l) (len l)))))).
Proof.
  intros Hne l s. subst l s.
  assert (Havg : Int64.in_range (sum (rtts p)) ->
                 Stats.AvgRtt (GenerateStats int64_undef p)
                 = truncated_mean (rtts p)).
  { intros Hsum. rewrite GenerateStats_AvgRtt.
    destruct (rtts p) as [| x l] eqn:E; [congruence |].
    rewrite fold_add_wrap by apply Int64_zero_in_range.
    rewrite Z.add_0_l, (Int64_wrap_small Hsum).
    apply Int64_quot_exact; [assumption | apply len_pos]. }
  split; [| split; [| intros Hsum; split; [now apply Havg |]]].
  - rewrite GenerateStats_MinRtt.
    destruct (rtts p) as [| x l]; [congruence |]. cbn [hd].
    split; [| apply fold_min_lower].
    destruct (fold_min_attained (x :: l) x) as [-> | H]; [now left | exact H].
  - rewrite GenerateStats_MaxRtt.
    destruct (rtts p) as [| x l]; [congruence |]. cbn [hd].
    split; [| apply fold_max_upper].
    destruct (fold_max_attained (x :: l) x) as [-> | H]; [now left | exact H].
  - intros Hsq. rewrite GenerateStats_StdDevRtt. cbv zeta.
    rewrite (Havg Hsum).
    destruct (rtts p) as [| x l] eqn:E; [congruence |].
    rewrite fold_square_wrap by apply Int64_zero_in_range.
    rewrite Z.add_0_l, (Int64_wrap_small Hsq).
    rewrite Int64_quot_exact; [reflexivity | assumption | apply len_pos].
Qed.

End StatsClaims.

Section ConstructionClaims.

Variable U : Type.
Variable ResolveIPAddr : string -> string -> result net.IPAddr.
Variable Rand : Type.
Variable rand_New : Z -> Rand.
Variable Intn : Rand -> Z -> Z * Rand.
Variable Int63n : Rand -> Z -> Z * Rand.

(** C8.  When the address does not resolve, [NewPinger] returns the
    resolver's error and no engine; when it resolves, [NewPinger] returns
    an engine that holds the resolved address and the address string it
    was given. *)
Theorem NewPinger_resolution (now : Z) (a : string) :
  (forall e : error,
      ResolveIPAddr "ip" a = Err e ->
      NewPinger U ResolveIPAddr rand_New Intn Int63n now a = Err e) /\
  (forall ip : net.IPAddr,
      ResolveIPAddr "ip" a = Ok ip ->
      exists p : Pinger U,
        NewPinger U ResolveIPAddr rand_New Intn Int63n now a = Ok p /\
        ipaddr p = Some ip /\ addr p = a /\
        ipv4 p = isIPv4 (net.IP_ ip)).
Proof.
  split.
  - intros e H. unfold NewPinger. now rewrite H.
  - intros ip H. unfold NewPinger. rewrite H.
    destruct (Intn (rand_New now) math.MaxInt16) as [i r1].
    destruct (Int63n r1 math.MaxInt64) as [t r2].
    eexists. split; [reflexivity |]. cbn [ipaddr addr ipv4].
    repeat split. now destruct (isIPv4 (net.IP_ ip)).
Qed.

(** C4 (as amended).  A freshly constructed engine has payload size
    [timeSliceLen], 8 bytes, which is less than the 16 bytes of a
    timestamp and a tracker; its exported [Size] is 0.  Construction
    checks no size: the only error it returns is the resolver's. *)
Theorem NewPinger_size (now : Z) (a : string) :
  match NewPinger U ResolveIPAddr rand_New Intn Int63n now a with
  | Ok p =>
      size p = timeSliceLen /\ size p = 8 /\ Size p = 0 /\
      size p < timeSliceLen + trackerLen
  | Err e => ResolveIPAddr "ip" a = Err e
  end.
Proof.
  unfold NewPinger.
  destruct (ResolveIPAddr "ip" a) as [ip | e]; [| reflexivity].
  destruct (Intn (rand_New now) math.MaxInt16) as [i r1].
  destruct (Int63n r1 math.MaxInt64) as [t r2].
  cbn. repeat split.
Qed.

End ConstructionClaims.

Section CompletionClaim.

Variable U : Type.
Variable Conn : Type.
Variable ListenPacket : string -> string -> result Conn.
Variable int64_undef : float -> Z.

Lemma GenerateStats_copies (p : Pinger U) :
  let s := GenerateStats int64_undef p in
  Stats.PacketsSent s = PacketsSent p /\
  Stats.PacketsRecieve s = PacketsRecieve p /\
  Stats.Rtts s = rtts p /\
  Stats.Addr s = addr p /\
  Stats.IPAddr s = ipaddr p.
Proof.
  cbv zeta. unfold GenerateStats.
  destruct (rtts p) as [| x l].
  - repeat split.
  - rewrite scan_step_fold. cbv beta iota.
    destruct (0 <? len (x :: l)); repeat split.
Qed.

Lemma GenerateStats_is_snapshot (p : Pinger U) :
  is_snapshot_of int64_undef p (GenerateStats int64_undef p).
Proof.
  destruct (GenerateStats_copies p) as (Hs & Hr & Hl & Ha & Hi).
  unfold is_snapshot_of.
  split; [exact Hs | split; [exact Hr | split; [| split; [exact Hl |
    split; [exact Ha | split; [exact Hi |]]]]]].
  - apply GenerateStats_PacketsLoss.
  - assert (Havg : rtts p <> [] ->
                   Stats.AvgRtt (GenerateStats int64_undef p)
                   = Z.quot (Int64.wrap (sum (rtts p))) (len (rtts p))).
    { intros Hne. rewrite GenerateStats_AvgRtt.
      destruct (rtts p) as [| x l]; [congruence |].
      rewrite fold_add_wrap by apply Int64_zero_in_range.
      rewrite Z.add_0_l.
      apply Int64_quot_exact; [apply Int64_wrap_range | apply len_pos]. }
    rewrite GenerateStats_MinRtt, GenerateStats_MaxRtt,
      GenerateStats_StdDevRtt.
    destruct (rtts p) as [| x l] eqn:E.
    + rewrite GenerateStats_AvgRtt, E. repeat split.
    + cbn [hd]. cbv zeta. split; [| split; [| split]].
      * split; [| apply fold_min_lower].
        destruct (fold_min_attained (x :: l) x) as [-> | H];
          [now left | exact H].
      * split; [| apply fold_max_upper].
        destruct (fold_max_attained (x :: l) x) as [-> | H];
          [now left | exact H].
      * apply Havg. discriminate.
      * rewrite fold_square_wrap by apply Int64_zero_in_range.
        rewrite Z.add_0_l.
        rewrite Int64_quot_exact;
          [reflexivity | apply Int64_wrap_range | apply len_pos].
Qed.

(** C7 (as amended).  No run invokes the completion callback more than
    once.  A run whose connection was acquired and whose completion
    callback is installed returns normally having invoked it exactly once,
    before closing the connection, on the statistics snapshot of the
    engine: the engine's counters, samples and address, and the loss,
    minimum, maximum, average and standard deviation computed from them.
    A run whose connection could not be acquired does not invoke it. *)
Theorem Run_completion_callback :
  (forall (p : Pinger U) (w : World U Conn),
      (finish_calls
         (trace (snd (snd (Run ListenPacket int64_undef (p, w)))))
       <= S (finish_calls (trace w)))%nat) /\
  (forall (p : Pinger U) (w : World U Conn) (c : Conn)
          (h : Stats.t -> U -> U),
      ListenPacket (netProto_of p) (Source p) = Ok c ->
      OnFinish p = Some h ->
      let out := Run ListenPacket int64_undef (p, w) in
      exists s : Stats.t,
        is_snapshot_of int64_undef p s /\
        fst out = Val tt /\
        trace (snd (snd out)) =
          trace w ++
          [EvListenPacket (netProto_of p) (Source p);
           EvSetControlMessage c (family_of p) (flag_of p) true;
           EvOnFinish s;
           EvConnClose c] /\
        finish_calls (trace (snd (snd out))) = S (finish_calls (trace w)) /\
        user (snd (snd out)) = h s (user w)) /\
  (forall (p : Pinger U) (w : World U Conn) (e : error),
      ListenPacket (netProto_of p) (Source p) = Err e ->
      let out := Run ListenPacket int64_undef (p, w) in
      finish_calls (trace (snd (snd out))) = finish_calls (trace w) /\
      user (snd (snd out)) = user w).
Proof.
  split; [| split].
  - intros p w.
    destruct (ListenPacket (netProto_of p) (Source p)) as [c | e] eqn:Hl.
    + rewrite (Run_acquired ListenPacket int64_undef p w Hl).
      cbn [fst snd trace].
      rewrite finish_calls_app. unfold finish_events.
      destruct (OnFinish p); cbn; lia.
    + rewrite (Run_unavailable ListenPacket int64_undef p w Hl).
      destruct (done p); cbn [fst snd trace];
        rewrite finish_calls_app; cbn; lia.
  - intros p w c h Hl Hh out. subst out.
    exists (GenerateStats int64_undef p).
    split; [apply GenerateStats_is_snapshot |].
    rewrite (Run_acquired ListenPacket int64_undef p w Hl).
    cbn [fst snd trace user].
    unfold finish_events, finish_user. rewrite Hh.
    rewrite finish_calls_app. cbn. repeat split. lia.
  - intros p w e Hl out. subst out.
    rewrite (Run_unavailable ListenPacket int64_undef p w Hl).
    destruct (done p); cbn [fst snd trace user];
      rewrite finish_calls_app; cbn; split; try reflexivity; lia.
Qed.

End CompletionClaim.

(** * The claims on concrete engines *)

(** [NewPinger] on the test doubles builds the engine written out as
    [Fake.fresh]. *)
Lemma Fake_new_localhost : Fake.new "localhost" = Ok Fake.fresh.
Proof. reflexivity. Qed.

(** Scenario A, C1 as stated: count 5 on a transport that accepts the
    listener.  After [Run] the sent counter is 0, not 5, and no per-packet
    callback has fired. *)
Lemma scenarioA_nothing_sent :
  ~ (PacketsSent (Fake.pinger_after Fake.echo_listen Fake.scenarioA) = 5 /\
     PacketsRecieve (Fake.pinger_after Fake.echo_listen Fake.scenarioA) = 5 /\
     Stats.PacketsLoss
       (Fake.stats (Fake.pinger_after Fake.echo_listen Fake.scenarioA))
     = 0%float /\
     recieve_calls (trace (Fake.world_after Fake.echo_listen Fake.scenarioA))
     = 5%nat).
Proof.
  intros [Hsent _]. vm_compute in Hsent. discriminate Hsent.
Qed.

Lemma Run_count5_sends_nothing_witness :
  Count Fake.scenarioA = 5 /\
  Fake.echo_listen (netProto_of Fake.scenarioA) (Source Fake.scenarioA)
  = Ok 0%nat /\
  fst (Fake.run Fake.echo_listen Fake.scenarioA) = Val tt /\
  PacketsSent (Fake.pinger_after Fake.echo_listen Fake.scenarioA) = 0 /\
  PacketsRecieve (Fake.pinger_after Fake.echo_listen Fake.scenarioA) = 0 /\
  recieve_calls (trace (Fake.world_after Fake.echo_listen Fake.scenarioA))
  = 0%nat.
Proof.
  assert (Hcount : Count Fake.scenarioA = 5) by reflexivity.
  assert (Hlisten : Fake.echo_listen (netProto_of Fake.scenarioA)
                      (Source Fake.scenarioA) = Ok 0%nat) by reflexivity.
  destruct (Run_count5_sends_nothing Fake.echo_listen Fake.int64_undef
              Fake.scenarioA Fake.world0 Hcount Hlisten)
    as (Hret & Hsent & Hrecv & _ & _ & Hcalls & _).
  repeat split; assumption.
Defined.

(** C2 as stated: on a transport that refuses the listener, with a
    completion callback installed, no completion callback is recorded. *)
Lemma unavailable_transport_no_OnFinish :
  ~ (exists s : Stats.t,
        In (EvOnFinish s)
          (trace (Fake.world_after Fake.deny_listen Fake.scenarioA)) /\
        Stats.PacketsSent s = 0 /\ Stats.PacketsRecieve s = 0).
Proof.
  intros [s [Hin _]]. vm_compute in Hin.
  destruct Hin as [H | [H | []]]; discriminate H.
Qed.

Lemma Run_unavailable_skips_finish_witness :
  Fake.deny_listen (netProto_of Fake.scenarioA) (Source Fake.scenarioA)
  = Err "socket: operation not permitted"%string /\
  done Fake.scenarioA = ChanOpen /\
  fst (Fake.run Fake.deny_listen Fake.scenarioA) = Val tt /\
  done (Fake.pinger_after Fake.deny_listen Fake.scenarioA) = ChanClosed /\
  finish_calls (trace (Fake.world_after Fake.deny_listen Fake.scenarioA))
  = 0%nat /\
  user (Fake.world_after Fake.deny_listen Fake.scenarioA) = 0%nat /\
  PacketsSent (Fake.pinger_after Fake.deny_listen Fake.scenarioA) = 0.
Proof.
  assert (Hlisten : Fake.deny_listen (netProto_of Fake.scenarioA)
                      (Source Fake.scenarioA)
                    = Err "socket: operation not permitted"%string)
    by reflexivity.
  assert (Hdone : done Fake.scenarioA = ChanOpen) by reflexivity.
  destruct (Run_unavailable_skips_finish Fake.deny_listen Fake.int64_undef
              Fake.scenarioA Fake.world0 Hlisten)
    as (_ & Huser & Hcalls & Hsent & _ & Hopen).
  destruct (Hopen Hdone) as [Hret Hclosed].
  repeat split; assumption.
Defined.

(** C7 as stated: on a transport that refuses the listener the run ends
    (normally, with the error logged and [done] closed) with a completion
    callback installed, and that callback has been invoked 0 times, not
    once. *)
Lemma unavailable_run_never_finishes :
  OnFinish Fake.scenarioA = Some Fake.count_finish /\
  fst (Fake.run Fake.deny_listen Fake.scenarioA) = Val tt /\
  finish_calls (trace (Fake.world_after Fake.deny_listen Fake.scenarioA))
  = 0%nat /\
  ~ (finish_calls (trace (Fake.world_after Fake.deny_listen Fake.scenarioA))
     = 1%nat).
Proof.
  split; [reflexivity | split; [reflexivity | split; [reflexivity |]]].
  intros H. vm_compute in H. discriminate H.
Qed.

Lemma Run_completion_callback_witness :
  Fake.echo_listen (netProto_of Fake.scenarioA) (Source Fake.scenarioA)
  = Ok 0%nat /\
  OnFinish Fake.scenarioA = Some Fake.count_finish /\
  Fake.deny_listen (netProto_of Fake.scenarioA) (Source Fake.scenarioA)
  = Err "socket: operation not permitted"%string /\
  fst (Fake.run Fake.echo_listen Fake.scenarioA) = Val tt /\
  finish_calls (trace (Fake.world_after Fake.echo_listen Fake.scenarioA))
  = 1%nat /\
  user (Fake.world_after Fake.echo_listen Fake.scenarioA) = 1%nat /\
  finish_calls (trace (Fake.world_after Fake.deny_listen Fake.scenarioA))
  = 0%nat /\
  user (Fake.world_after Fake.deny_listen Fake.scenarioA) = 0%nat.
Proof.
  assert (Hok : Fake.echo_listen (netProto_of Fake.scenarioA)
                  (Source Fake.scenarioA) = Ok 0%nat) by reflexivity.
  assert (Hh : OnFinish Fake.scenarioA = Some Fake.count_finish)
    by reflexivity.
  assert (Herr : Fake.deny_listen (netProto_of Fake.scenarioA)
                   (Source Fake.scenarioA)
                 = Err "socket: operation not permitted"%string)
    by reflexivity.
  destruct (@Run_completion_callback nat nat Fake.echo_listen
              Fake.int64_undef) as (_ & Honce & _).
  destruct (Honce Fake.scenarioA Fake.world0 0%nat Fake.count_finish
              Hok Hh) as (s & _ & Hret & _ & Hcalls & Huser).
  destruct (@Run_completion_callback nat nat Fake.deny_listen
              Fake.int64_undef) as (_ & _ & Hnone).
  destruct (Hnone Fake.scenarioA Fake.world0 _ Herr) as (Hzero & Hsame).
  split; [exact Hok | split; [exact Hh | split; [exact Herr |]]].
  split; [exact Hret | split; [exact Hcalls | split; [| split]]].
  - reflexivity.
  - exact Hzero.
  - exact Hsame.
Defined.

Lemma finish_nil_OnFinish_witness :
  OnFinish Fake.fresh = None /\
  finish Fake.int64_undef (Fake.fresh, Fake.world0)
  = (Val tt, (Fake.fresh, Fake.world0)).
Proof.
  assert (H : OnFinish Fake.fresh = None) by reflexivity.
  split; [exact H |].
  exact (finish_nil_OnFinish Fake.int64_undef Fake.fresh Fake.world0 H).
Defined.

Lemma GenerateStats_no_samples_witness :
  rtts Fake.fresh = [] /\
  PacketsSent Fake.fresh = 0 /\ PacketsRecieve Fake.fresh = 0 /\
  Stats.MinRtt (Fake.stats Fake.fresh) = 0 /\
  Stats.MaxRtt (Fake.stats Fake.fresh) = 0 /\
  Stats.AvgRtt (Fake.stats Fake.fresh) = 0 /\
  Stats.StdDevRtt (Fake.stats Fake.fresh) = 0 /\
  PrimFloat.is_nan (Stats.PacketsLoss (Fake.stats Fake.fresh)) = true.
Proof.
  assert (Hnil : rtts Fake.fresh = []) by reflexivity.
  assert (Hs : PacketsSent Fake.fresh = 0) by reflexivity.
  assert (Hr : PacketsRecieve Fake.fresh = 0) by reflexivity.
  destruct (GenerateStats_no_samples Fake.int64_undef Fake.fresh Hnil)
    as [(Hmin & Hmax & Havg & Hsd) Hnan].
  specialize (Hnan Hs Hr).
  repeat split; assumption.
Defined.

Lemma GenerateStats_loss_witness :
  0 < PacketsSent Fake.sampled <= Int64.max_int /\
  0 <= PacketsRecieve Fake.sampled <= Int64.max_int /\
  Stats.PacketsLoss (Fake.stats Fake.sampled) = 40%float.
Proof.
  assert (HN : 0 < PacketsSent Fake.sampled <= Int64.max_int)
    by (vm_compute; split; [reflexivity | discriminate]).
  assert (HR : 0 <= PacketsRecieve Fake.sampled <= Int64.max_int)
    by (vm_compute; split; discriminate).
  split; [exact HN | split; [exact HR |]].
  exact (GenerateStats_loss Fake.int64_undef Fake.sampled HN HR).
Defined.

(** C6 as stated, on round trips of 0s and 8.589934593s: the reported
    average, 4294967296ns, is not the mean of the two samples, and the
    reported standard deviation, 65536ns, is not the whole-nanosecond part
    of the root of the mean squared deviation from that average. *)
Lemma spread_breaks_mean_and_stddev :
  Stats.AvgRtt (Fake.stats (set_rtts Fake.fresh Fake.spread)) = 4294967296 /\
  Stats.StdDevRtt (Fake.stats (set_rtts Fake.fresh Fake.spread)) = 65536 /\
  ~ is_arithmetic_mean Fake.spread
      (Stats.AvgRtt (Fake.stats (set_rtts Fake.fresh Fake.spread))) /\
  ~ is_population_stddev Fake.spread
      (Stats.AvgRtt (Fake.stats (set_rtts Fake.fresh Fake.spread)))
      (Stats.StdDevRtt (Fake.stats (set_rtts Fake.fresh Fake.spread))).
Proof.
  split; [reflexivity | split; [reflexivity | split]].
  - intros H. vm_compute in H. discriminate H.
  - intros [_ [_ H]]. vm_compute in H. discriminate H.
Qed.

Lemma GenerateStats_rtt_summary_witness :
  rtts Fake.sampled <> [] /\
  Int64.in_range (sum (rtts Fake.sampled)) /\
  Int64.in_range
    (sum_sq_dev (truncated_mean (rtts Fake.sampled)) (rtts Fake.sampled)) /\
  is_minimum (rtts Fake.sampled) 10 /\
  is_maximum (rtts Fake.sampled) 60 /\
  Stats.AvgRtt (Fake.stats Fake.sampled) = 30 /\
  Stats.StdDevRtt (Fake.stats Fake.sampled) = 21.
Proof.
  assert (Hne : rtts Fake.sampled <> []) by discriminate.
  assert (Hsum : Int64.in_range (sum (rtts Fake.sampled)))
    by (vm_compute; split; discriminate).
  assert (Hsq : Int64.in_range
                  (sum_sq_dev (truncated_mean (rtts Fake.sampled))
                     (rtts Fake.sampled)))
    by (vm_compute; split; discriminate).
  destruct (GenerateStats_rtt_summary Fake.int64_undef Fake.sampled Hne)
    as (Hmin & Hmax & Hrest).
  destruct (Hrest Hsum) as [Havg Hsd].
  specialize (Hsd Hsq).
  exact (conj Hne (conj Hsum (conj Hsq
           (conj Hmin (conj Hmax (conj Havg Hsd)))))).
Defined.

Lemma NewPinger_resolution_witness :
  Fake.resolve "ip" "nohost" = Err "lookup nohost: no such host"%string /\
  Fake.new "nohost" = Err "lookup nohost: no such host"%string /\
  Fake.resolve "ip" "localhost" = Ok Fake.loopback /\
  exists p : Pinger nat,
    Fake.new "localhost" = Ok p /\
    ipaddr p = Some Fake.loopback /\ addr p = "localhost"%string /\
    ipv4 p = true.
Proof.
  assert (Hbad : Fake.resolve "ip" "nohost"
                 = Err "lookup nohost: no such host"%string) by reflexivity.
  assert (Hgood : Fake.resolve "ip" "localhost" = Ok Fake.loopback)
    by reflexivity.
  split; [exact Hbad | split; [| split; [exact Hgood |]]].
  - exact (proj1 (NewPinger_resolution nat Fake.resolve Fake.rand_New
                    Fake.Intn Fake.Int63n 0 "nohost") _ Hbad).
  - exact (proj2 (NewPinger_resolution nat Fake.resolve Fake.rand_New
                    Fake.Intn Fake.Int63n 0 "localhost") _ Hgood).
Defined.

(** C4 as stated: the engine [NewPinger] builds has payload size 8 and
    exported [Size] 0, neither of which reaches 16. *)
Lemma fresh_size_below_16 :
  Fake.new "localhost" = Ok Fake.fresh /\
  ~ (16 <= size Fake.fresh) /\ ~ (16 <= Size Fake.fresh).
Proof.
  split; [reflexivity |].
  split; intros H; vm_compute in H; apply H; reflexivity.
Qed.

(** Further evaluations of [GenerateStats]. *)

(** Scenario B's counters: five sent, three received, loss 40. *)
Example loss_5_3 : loss_percent 5 3 = 40%float.
Proof. reflexivity. Qed.

Example loss_5_5 : loss_percent 5 5 = 0%float.
Proof. reflexivity. Qed.

(** Round trips of 0s and 8.589934592s: each squared deviation is [2^64],
    which wraps to 0, and the reported standard deviation is 0. *)
Example stddev_wraps_to_zero :
  Stats.StdDevRtt (Fake.stats (set_rtts Fake.fresh [0; 8589934592])) = 0.
Proof. reflexivity. Qed.

(** What the completion callback of scenario A receives. *)
Example scenarioA_trace :
  trace (Fake.world_after Fake.echo_listen Fake.scenarioA) =
  [EvListenPacket "udp4" EmptyString;
   EvSetControlMessage 0%nat IPv4PacketConn FlagTTL true;
   EvOnFinish (Fake.stats Fake.scenarioA);
   EvConnClose 0%nat].
Proof. reflexivity. Qed.

(** * Further properties of the code *)

(** ** isIPv4 *)

(** X1.  [isIPv4] accepts exactly the 4-byte addresses and the 16-byte
    addresses that carry an IPv4 address; every other byte string, the
    empty one included, is taken for IPv6. *)
Theorem isIPv4_spec (ip : net.IP) :
  isIPv4 ip = Nat.eqb (length ip) 4 || is4in6 ip.
Proof.
  unfold isIPv4, is4in6, net.To4, net.IPv4len, net.IPv6len.
  destruct (Nat.eqb_spec (length ip) 4) as [H4 | H4].
  - rewrite H4. reflexivity.
  - cbn [orb].
    destruct (Nat.eqb_spec (length ip) 16) as [H16 | H16]; cbn [andb].
    + destruct (net.isZeros (firstn 10 ip)); cbn [andb]; [| reflexivity].
      destruct (Byte.eqb (nth 10 ip Byte.x00) Byte.xff); cbn [andb];
        [| reflexivity].
      destruct (Byte.eqb (nth 11 ip Byte.x00) Byte.xff); [| reflexivity].
      rewrite length_firstn, length_skipn, H16. reflexivity.
    + reflexivity.
Qed.

(** ** NewPinger *)

Section ConstructionFacts.

Variable U : Type.
Variable ResolveIPAddr : string -> string -> result net.IPAddr.
Variable Rand : Type.
Variable rand_New : Z -> Rand.
Variable Intn : Rand -> Z -> Z * Rand.
Variable Int63n : Rand -> Z -> Z * Rand.

(** X2.  The identifier and the tracker token of a new engine are drawn
    from a generator seeded with the clock reading alone: two engines
    constructed at the same reading, whatever their addresses, carry the
    same identifier and the same tracker. *)
Theorem NewPinger_same_clock_same_tokens
  (now : Z) (a1 a2 : string) (p1 p2 : Pinger U) :
  NewPinger U ResolveIPAddr rand_New Intn Int63n now a1 = Ok p1 ->
  NewPinger U ResolveIPAddr rand_New Intn Int63n now a2 = Ok p2 ->
  id p1 = id p2 /\ Tracker p1 = Tracker p2.
Proof.
  unfold NewPinger. intros H1 H2.
  destruct (ResolveIPAddr "ip" a1) as [ip1 | e1]; [| discriminate H1].
  destruct (ResolveIPAddr "ip" a2) as [ip2 | e2]; [| discriminate H2].
  destruct (Intn (rand_New now) math.MaxInt16) as [i r1].
  destruct (Int63n r1 math.MaxInt64) as [t r2].
  injection H1 as <-. injection H2 as <-. split; reflexivity.
Qed.

(** X3.  When the generator honours the contract of [rand.Intn] and
    [rand.Int63n], the identifier of a new engine lies in [[0, 32767)], so
    it fits the 16-bit identifier field of an ICMP echo, and the tracker
    lies in [[0, 2^63 - 1)], so it is a non-negative [int64]. *)
Theorem NewPinger_token_ranges (now : Z) (a : string) (p : Pinger U) :
  draws_below Intn -> draws_below Int63n ->
  NewPinger U ResolveIPAddr rand_New Intn Int63n now a = Ok p ->
  0 <= id p < math.MaxInt16 /\
  id p < 2 ^ 16 /\
  0 <= Tracker p < math.MaxInt64 /\
  Int64.in_range (Tracker p).
Proof.
  unfold NewPinger. intros Hn Hn63 H.
  destruct (ResolveIPAddr "ip" a) as [ip | e]; [| discriminate H].
  pose proof (Hn (rand_New now) math.MaxInt16 eq_refl) as Hi.
  destruct (Intn (rand_New now) math.MaxInt16) as [i r1].
  pose proof (Hn63 r1 math.MaxInt64 eq_refl) as Ht.
  destruct (Int63n r1 math.MaxInt64) as [t r2].
  injection H as <-. cbn [id Tracker fst] in *.
  unfold math.MaxInt16, math.MaxInt64 in *. int64_unfold. lia.
Qed.

(** X4.  The engine [NewPinger] returns is set up for the address family
    of the resolved address: its [ipv4] flag holds exactly when that address
    has 4 bytes or is a 16-byte address carrying an IPv4 address, and with
    the default network the protocol [Run] will listen on is then "udp4",
    otherwise "udp6". *)
Theorem NewPinger_family (now : Z) (a : string) (ip : net.IPAddr)
  (p : Pinger U) :
  ResolveIPAddr "ip" a = Ok ip ->
  NewPinger U ResolveIPAddr rand_New Intn Int63n now a = Ok p ->
  ipv4 p = Nat.eqb (length (net.IP_ ip)) 4 || is4in6 (net.IP_ ip) /\
  netProto_of p = (if ipv4 p then "udp4" else "udp6")%string /\
  Source p = EmptyString.
Proof.
  unfold NewPinger. intros Hip H. rewrite Hip in H.
  destruct (Intn (rand_New now) math.MaxInt16) as [i r1].
  destruct (Int63n r1 math.MaxInt64) as [t r2].
  injection H as <-. unfold netProto_of. cbn [ipv4 network Source].
  rewrite <- isIPv4_spec.
  destruct (isIPv4 (net.IP_ ip)); repeat split.
Qed.

End ConstructionFacts.

(** ** GenerateStats *)

Lemma sum_lower (l : list Z) (m : Z) :
  Forall (fun x => m <= x) l -> len l * m <= sum l.
Proof.
  unfold len, sum. induction 1 as [| x l Hx _ IH].
  - cbn [fold_right length]. lia.
  - cbn [fold_right length] in *.
    rewrite Nat2Z.inj_succ, Z.mul_succ_l. lia.
Qed.

Lemma sum_upper (l : list Z) (m : Z) :
  Forall (fun x => x <= m) l -> sum l <= len l * m.
Proof.
  unfold len, sum. induction 1 as [| x l Hx _ IH].
  - cbn [fold_right length]. lia.
  - cbn [fold_right length] in *.
    rewrite Nat2Z.inj_succ, Z.mul_succ_l. lia.
Qed.

Lemma truncated_mean_between (l : list Z) (lo hi : Z) :
  l <> [] ->
  Forall (fun x => lo <= x) l -> Forall (fun x => x <= hi) l ->
  lo <= truncated_mean l <= hi.
Proof.
  intros Hne Hlo Hhi. unfold truncated_mean.
  assert (Hn : 0 < len l) by (destruct l; [congruence | apply len_pos]).
  split.
  - apply Z.quot_le_lower_bound; [exact Hn |].
    rewrite Z.mul_comm. rewrite Z.mul_comm. now apply sum_lower.
  - apply Z.quot_le_upper_bound; [exact Hn |]. now apply sum_upper.
Qed.

Lemma sum_sq_dev_bound (l : list Z) (a w : Z) :
  Forall (fun x => - w <= x - a <= w) l ->
  0 <= sum_sq_dev a l <= len l * (w * w).
Proof.
  unfold len, sum_sq_dev. induction 1 as [| x l Hx _ IH].
  - cbn [fold_right length]. lia.
  - cbn [fold_right length] in *.
    rewrite Nat2Z.inj_succ, Z.mul_succ_l.
    pose proof (Z.square_nonneg (x - a)) as Hsq.
    assert (Hprod : 0 <= (w - (x - a)) * (w + (x - a)))
      by (apply Z.mul_nonneg_nonneg; lia).
    assert ((x - a) * (x - a) <= w * w) by nia. lia.
Qed.

Lemma Forall_weaken_Z (P Q : Z -> Prop) (l : list Z) :
  (forall x, P x -> Q x) -> Forall P l -> Forall Q l.
Proof. intros HPQ H. induction H; constructor; auto. Qed.

Section StatsMore.

Variable U : Type.
Variable int64_undef : float -> Z.

Lemma AvgRtt_no_wrap (p : Pinger U) :
  rtts p <> [] -> Int64.in_range (sum (rtts p)) ->
  Stats.AvgRtt (GenerateStats int64_undef p) = truncated_mean (rtts p).
Proof.
  intros Hne Hsum. rewrite GenerateStats_AvgRtt.
  destruct (rtts p) as [| x l] eqn:E; [congruence |].
  rewrite fold_add_wrap by apply Int64_zero_in_range.
  rewrite Z.add_0_l, (Int64_wrap_small Hsum).
  apply Int64_quot_exact; [assumption | apply len_pos].
Qed.

Lemma StdDevRtt_no_wrap (p : Pinger U) :
  rtts p <> [] -> Int64.in_range (sum (rtts p)) ->
  Int64.in_range (sum_sq_dev (truncated_mean (rtts p)) (rtts p)) ->
  Stats.StdDevRtt (GenerateStats int64_undef p) =
  Float64.to_int64 int64_undef
    (math.Sqrt
       (Float64.of_int
          (Z.quot (sum_sq_dev (truncated_mean (rtts p)) (rtts p))
             (len (rtts p))))).
Proof.
  intros Hne Hsum Hsq. rewrite GenerateStats_StdDevRtt. cbv zeta.
  rewrite (AvgRtt_no_wrap p Hne Hsum).
  destruct (rtts p) as [| x l] eqn:E; [congruence |].
  rewrite fold_square_wrap by apply Int64_zero_in_range.
  rewrite Z.add_0_l, (Int64_wrap_small Hsq).
  rewrite Int64_quot_exact; [reflexivity | assumption | apply len_pos].
Qed.

(** X5.  In every snapshot, whatever the samples and however the sums
    wrap, [MinRtt <= MaxRtt]. *)
Theorem GenerateStats_min_le_max (p : Pinger U) :
  Stats.MinRtt (GenerateStats int64_undef p)
  <= Stats.MaxRtt (GenerateStats int64_undef p).
Proof.
  rewrite GenerateStats_MinRtt, GenerateStats_MaxRtt.
  pose proof (fold_min_le_init (rtts p) (hd 0 (rtts p))).
  pose proof (fold_max_ge_init (rtts p) (hd 0 (rtts p))).
  lia.
Qed.

(** X6.  When there are samples and their sum fits in an [int64], the
    average lies between the minimum and the maximum, and it is off the
    exact mean by less than one nanosecond:
    [|sum - n * AvgRtt| < n]. *)
Theorem GenerateStats_avg_between (p : Pinger U) :
  rtts p <> [] -> Int64.in_range (sum (rtts p)) ->
  let s := GenerateStats int64_undef p in
  Stats.MinRtt s <= Stats.AvgRtt s <= Stats.MaxRtt s /\
  Z.abs (sum (rtts p) - len (rtts p) * Stats.AvgRtt s) < len (rtts p).
Proof.
  intros Hne Hsum s. subst s.
  rewrite (AvgRtt_no_wrap p Hne Hsum), GenerateStats_MinRtt,
    GenerateStats_MaxRtt.
  split.
  - apply truncated_mean_between; [exact Hne | |].
    + apply fold_min_lower.
    + apply fold_max_upper.
  - unfold truncated_mean.
    assert (Hn : 0 < len (rtts p))
      by (destruct (rtts p); [congruence | apply len_pos]).
    pose proof (Z.quot_rem' (sum (rtts p)) (len (rtts p))) as E.
    pose proof (Z.rem_bound_abs (sum (rtts p)) (len (rtts p))
                  ltac:(lia)) as Hr.
    revert E Hr.
    generalize (Z.quot (sum (rtts p)) (len (rtts p)))
               (Z.rem (sum (rtts p)) (len (rtts p))).
    intros q r E Hr. lia.
Qed.

(** X7.  When every sample equals the same value [x] and [n * x] fits in
    an [int64] (one sample is the simplest case), the snapshot reports [x]
    as minimum, maximum and average and 0 as standard deviation. *)
Theorem GenerateStats_constant_samples (p : Pinger U) (x : Z) :
  rtts p <> [] ->
  Forall (fun y => y = x) (rtts p) ->
  Int64.in_range (len (rtts p) * x) ->
  let s := GenerateStats int64_undef p in
  Stats.MinRtt s = x /\ Stats.MaxRtt s = x /\
  Stats.AvgRtt s = x /\ Stats.StdDevRtt s = 0.
Proof.
  intros Hne Hall Hrange s. subst s.
  assert (Hn : 0 < len (rtts p))
    by (destruct (rtts p); [congruence | apply len_pos]).
  assert (Hlo : Forall (fun y => x <= y) (rtts p))
    by (eapply Forall_weaken_Z; [| exact Hall]; cbv beta; lia).
  assert (Hhi : Forall (fun y => y <= x) (rtts p))
    by (eapply Forall_weaken_Z; [| exact Hall]; cbv beta; lia).
  assert (Hsum : sum (rtts p) = len (rtts p) * x).
  { pose proof (sum_lower Hlo). pose proof (sum_upper Hhi). lia. }
  assert (Hmean : truncated_mean (rtts p) = x).
  { pose proof (truncated_mean_between Hne Hlo Hhi). lia. }
  assert (Hsq : sum_sq_dev x (rtts p) = 0).
  { assert (Hdev : Forall (fun y => - 0 <= y - x <= 0) (rtts p))
      by (eapply Forall_weaken_Z; [| exact Hall]; cbv beta; lia).
    pose proof (@sum_sq_dev_bound (rtts p) x 0 Hdev). lia. }
  assert (Hin : Int64.in_range (sum (rtts p))) by now rewrite Hsum.
  split; [| split; [| split]].
  - rewrite GenerateStats_MinRtt. rewrite Forall_forall in Hall.
    destruct (rtts p) as [| y l] eqn:E; [congruence |]. cbn [hd].
    destruct (fold_min_attained (y :: l) y) as [-> | HIn].
    + apply Hall. now left.
    + now apply Hall.
  - rewrite GenerateStats_MaxRtt. rewrite Forall_forall in Hall.
    destruct (rtts p) as [| y l] eqn:E; [congruence |]. cbn [hd].
    destruct (fold_max_attained (y :: l) y) as [-> | HIn].
    + apply Hall. now left.
    + now apply Hall.
  - now rewrite (AvgRtt_no_wrap p Hne Hin).
  - rewrite (StdDevRtt_no_wrap p Hne Hin); rewrite Hmean, Hsq.
    + rewrite Z.quot_0_l by lia. reflexivity.
    + apply Int64_zero_in_range.
Qed.

(** X8.  A condition on the samples under which the standard deviation is
    computed without wrap-around: when all [n] samples lie in a window
    [[lo, hi]], their sum fits in an [int64] and [n * (hi - lo)^2] does not
    exceed the largest [int64], [StdDevRtt] is the [float64] square root of
    the whole-number mean of the squared deviations from [AvgRtt],
    converted to whole nanoseconds, and that mean is at most
    [(hi - lo)^2]. *)
Theorem GenerateStats_stddev_window (p : Pinger U) (lo hi : Z) :
  rtts p <> [] ->
  Forall (fun x => lo <= x <= hi) (rtts p) ->
  Int64.in_range (sum (rtts p)) ->
  len (rtts p) * ((hi - lo) * (hi - lo)) <= Int64.max_int ->
  let s := GenerateStats int64_undef p in
  let m := Z.quot (sum_sq_dev (Stats.AvgRtt s) (rtts p)) (len (rtts p)) in
  lo <= Stats.AvgRtt s <= hi /\
  0 <= m <= (hi - lo) * (hi - lo) /\
  Stats.StdDevRtt s =
  Float64.to_int64 int64_undef (math.Sqrt (Float64.of_int m)).
Proof.
  intros Hne Hwin Hsum Hbound s m. subst s m.
  assert (Hn : 0 < len (rtts p))
    by (destruct (rtts p); [congruence | apply len_pos]).
  assert (Hlo : Forall (fun x => lo <= x) (rtts p))
    by (eapply Forall_weaken_Z; [| exact Hwin]; cbv beta; lia).
  assert (Hhi : Forall (fun x => x <= hi) (rtts p))
    by (eapply Forall_weaken_Z; [| exact Hwin]; cbv beta; lia).
  pose proof (truncated_mean_between Hne Hlo Hhi) as Hmean.
  rewrite (AvgRtt_no_wrap p Hne Hsum).
  assert (Hdev : Forall (fun x => - (hi - lo) <= x - truncated_mean (rtts p)
                                  <= hi - lo) (rtts p))
    by (eapply Forall_weaken_Z; [| exact Hwin]; cbv beta; lia).
  pose proof (@sum_sq_dev_bound (rtts p) (truncated_mean (rtts p))
                (hi - lo) Hdev) as Hsq.
  assert (Hin : Int64.in_range
                  (sum_sq_dev (truncated_mean (rtts p)) (rtts p)))
    by (int64_unfold; lia).
  split; [exact Hmean | split].
  - split.
    + apply Z.quot_pos; lia.
    + apply Z.quot_le_upper_bound; [exact Hn | lia].
  - exact (StdDevRtt_no_wrap p Hne Hsum Hin).
Qed.

(** X15.  What the two sums come to for any non-empty sample sequence,
    wrap-around included: [AvgRtt] is the sum of the samples reduced to an
    [int64], divided by their number with the fraction discarded, and
    [StdDevRtt] is the [float64] square root, converted to [int64], of the
    sum of the squared deviations from [AvgRtt], likewise reduced and
    divided. *)
Theorem GenerateStats_closed_form (p : Pinger U) :
  rtts p <> [] ->
  let s := GenerateStats int64_undef p in
  let n := len (rtts p) in
  Stats.AvgRtt s = Z.quot (Int64.wrap (sum (rtts p))) n /\
  Stats.StdDevRtt s =
  Float64.to_int64 int64_undef
    (math.Sqrt
       (Float64.of_int
          (Z.quot (Int64.wrap (sum_sq_dev (Stats.AvgRtt s) (rtts p))) n))).
Proof.
  intros Hne s n. subst s n.
  assert (Havg : Stats.AvgRtt (GenerateStats int64_undef p)
                 = Z.quot (Int64.wrap (sum (rtts p))) (len (rtts p))).
  { rewrite GenerateStats_AvgRtt.
    destruct (rtts p) as [| x l] eqn:E; [congruence |].
    rewrite fold_add_wrap by apply Int64_zero_in_range.
    rewrite Z.add_0_l.
    apply Int64_quot_exact; [apply Int64_wrap_range | apply len_pos]. }
  split; [exact Havg |].
  rewrite GenerateStats_StdDevRtt. cbv zeta.
  destruct (rtts p) as [| x l] eqn:E; [congruence |].
  rewrite fold_square_wrap by apply Int64_zero_in_range.
  rewrite Z.add_0_l.
  rewrite Int64_quot_exact; [reflexivity | apply Int64_wrap_range
                            | apply len_pos].
Qed.

End StatsMore.

(** ** Run, listen and finish *)

Lemma close_calls_app Conn (t1 t2 : list (Event Conn)) :
  close_calls (t1 ++ t2) = (close_calls t1 + close_calls t2)%nat.
Proof. unfold close_calls. now rewrite filter_app, length_app. Qed.

Lemma control_calls_app Conn (t1 t2 : list (Event Conn)) :
  control_calls (t1 ++ t2) = (control_calls t1 + control_calls t2)%nat.
Proof. unfold control_calls. now rewrite filter_app, length_app. Qed.

Lemma listen_calls_app Conn (t1 t2 : list (Event Conn)) :
  listen_calls (t1 ++ t2) = (listen_calls t1 + listen_calls t2)%nat.
Proof. unfold listen_calls. now rewrite filter_app, length_app. Qed.

Lemma finish_events_counts U Conn (u : float -> Z) (p : Pinger U) :
  close_calls (finish_events Conn u p) = 0%nat /\
  control_calls (finish_events Conn u p) = 0%nat /\
  listen_calls (finish_events Conn u p) = 0%nat.
Proof. unfold finish_events. destruct (OnFinish p); repeat split. Qed.

Section RunMore.

Variable U : Type.
Variable Conn : Type.
Variable ListenPacket : string -> string -> result Conn.
Variable int64_undef : float -> Z.

(** X9.  [Run] writes to no field of the engine but [done]: after any
    run, however it ends, the engine is the one it started with or that
    engine with [done] closed, and a statistics snapshot taken after the
    run equals one taken before it. *)
Theorem Run_keeps_engine (p : Pinger U) (w : World U Conn) :
  let p' := fst (snd (Run ListenPacket int64_undef (p, w))) in
  (p' = p \/ p' = set_done p ChanClosed) /\
  GenerateStats int64_undef p' = GenerateStats int64_undef p.
Proof.
  cbv zeta.
  destruct (ListenPacket (netProto_of p) (Source p)) as [c | e] eqn:Hl.
  - rewrite (Run_acquired ListenPacket int64_undef p w Hl). cbn [fst snd].
    split; [now left | reflexivity].
  - rewrite (Run_unavailable ListenPacket int64_undef p w Hl).
    destruct (done p); cbn [fst snd]; split; auto.
Qed.

(** X10.  [Run] calls [icmp.ListenPacket] exactly once, first of all, with
    the engine's source address and the protocol its tables give: for
    network "ip" it is "ip4:icmp" or "ip6:ipv6-icmp", for "udp" it is
    "udp4" or "udp6", by the [ipv4] flag; for any other network name the
    table lookup misses and the listener is asked for the empty
    protocol. *)
Theorem Run_listens_once (p : Pinger U) (w : World U Conn) :
  let t' := trace (snd (snd (Run ListenPacket int64_undef (p, w)))) in
  let proto :=
    if String.eqb "ip" (network p)
    then (if ipv4 p then "ip4:icmp" else "ip6:ipv6-icmp")%string
    else if String.eqb "udp" (network p)
         then (if ipv4 p then "udp4" else "udp6")%string
         else EmptyString in
  (exists rest, t' = trace w ++ EvListenPacket proto (Source p) :: rest) /\
  listen_calls t' = S (listen_calls (trace w)).
Proof.
  cbv zeta.
  assert (Hproto :
            netProto_of p =
            if String.eqb "ip" (network p)
            then (if ipv4 p then "ip4:icmp" else "ip6:ipv6-icmp")%string
            else if String.eqb "udp" (network p)
                 then (if ipv4 p then "udp4" else "udp6")%string
                 else EmptyString).
  { unfold netProto_of, ipv4Proto, ipv6Proto.
    destruct (ipv4 p); cbn [map_index];
      destruct (String.eqb "ip" (network p));
      destruct (String.eqb "udp" (network p)); reflexivity. }
  rewrite <- Hproto.
  destruct (ListenPacket (netProto_of p) (Source p)) as [c | e] eqn:Hl.
  - rewrite (Run_acquired ListenPacket int64_undef p w Hl).
    cbn [fst snd trace]. split.
    + eexists. cbn [app]. reflexivity.
    + rewrite listen_calls_app, (app_assoc [_; _]), listen_calls_app,
        listen_calls_app.
      destruct (finish_events_counts Conn int64_undef p) as (_ & _ & ->).
      cbn. lia.
  - rewrite (Run_unavailable ListenPacket int64_undef p w Hl).
    destruct (done p); cbn [fst snd trace];
      (split; [eexists; reflexivity | rewrite listen_calls_app; cbn; lia]).
Qed.

(** X11.  The connection a run acquires is configured once and closed
    exactly once, as the very last thing the run does and so after the
    completion callback; a run that acquires no connection configures and
    closes none. *)
Theorem Run_connection_lifecycle (p : Pinger U) (w : World U Conn) :
  let t' := trace (snd (snd (Run ListenPacket int64_undef (p, w)))) in
  match ListenPacket (netProto_of p) (Source p) with
  | Ok c =>
      (exists before, t' = before ++ [EvConnClose c] /\
                      finish_calls before
                      = (finish_calls (trace w)
                         + match OnFinish p with
                           | Some _ => 1
                           | None => 0
                           end)%nat) /\
      close_calls t' = S (close_calls (trace w)) /\
      control_calls t' = S (control_calls (trace w)) /\
      In (EvSetControlMessage c (family_of p) (flag_of p) true) t'
  | Err _ =>
      close_calls t' = close_calls (trace w) /\
      control_calls t' = control_calls (trace w)
  end.
Proof.
  cbv zeta.
  destruct (ListenPacket (netProto_of p) (Source p)) as [c | e] eqn:Hl.
  - rewrite (Run_acquired ListenPacket int64_undef p w Hl).
    cbn [fst snd trace].
    destruct (finish_events_counts Conn int64_undef p) as (Hc & Hs & _).
    repeat split.
    + exists (trace w ++
              [EvListenPacket (netProto_of p) (Source p);
               EvSetControlMessage c (family_of p) (flag_of p) true] ++
              finish_events Conn int64_undef p).
      split.
      * now rewrite <- !app_assoc.
      * rewrite !finish_calls_app. unfold finish_events.
        destruct (OnFinish p); cbn; lia.
    + rewrite close_calls_app, (app_assoc [_; _]), close_calls_app,
        close_calls_app, Hc. cbn. lia.
    + rewrite control_calls_app, (app_assoc [_; _]), control_calls_app,
        control_calls_app, Hs. cbn. lia.
    + apply in_or_app. right. right. now left.
  - rewrite (Run_unavailable ListenPacket int64_undef p w Hl).
    destruct (done p); cbn [fst snd trace];
      rewrite close_calls_app, control_calls_app; cbn; lia.
Qed.

(** X12.  When the listener cannot be acquired and the [done] channel is
    not open (it is nil in a [Pinger] built without [NewPinger], closed
    after an earlier failed run), [Run] panics in [close(p.done)]: the
    error has been logged, the engine is unchanged and no callback has
    run. *)
Theorem Run_unavailable_panics
  (p : Pinger U) (w : World U Conn) (e : error) :
  ListenPacket (netProto_of p) (Source p) = Err e ->
  done p <> ChanOpen ->
  let out := Run ListenPacket int64_undef (p, w) in
  (exists msg, fst out = Panic msg) /\
  fst (snd out) = p /\
  user (snd (snd out)) = user w /\
  trace (snd (snd out)) =
    trace w ++ [EvListenPacket (netProto_of p) (Source p);
                EvLogPrintln [listen_error_text; e]].
Proof.
  intros Hl Hdone out. subst out.
  rewrite (Run_unavailable ListenPacket int64_undef p w Hl).
  destruct (done p); [| congruence |]; cbn [fst snd user trace];
    repeat split; eexists; reflexivity.
Qed.

(** X13.  Two runs in a row on a transport that refuses the listener:
    the first returns normally and closes [done], the second panics with
    "close of closed channel".  The listener has been asked twice, the
    error logged twice, and the completion callback never invoked. *)
Theorem Run_twice_unavailable_panics
  (p : Pinger U) (w : World U Conn) (e : error) :
  ListenPacket (netProto_of p) (Source p) = Err e ->
  done p = ChanOpen ->
  let out := Run_twice ListenPacket int64_undef (p, w) in
  fst out = Panic "close of closed channel" /\
  fst (snd out) = set_done p ChanClosed /\
  user (snd (snd out)) = user w /\
  trace (snd (snd out)) =
    trace w ++ [EvListenPacket (netProto_of p) (Source p);
                EvLogPrintln [listen_error_text; e];
                EvListenPacket (netProto_of p) (Source p);
                EvLogPrintln [listen_error_text; e]].
Proof.
  intros Hl Hdone out. subst out. unfold Run_twice, bind.
  rewrite (Run_unavailable ListenPacket int64_undef p w Hl), Hdone.
  assert (Hl' : ListenPacket (netProto_of (set_done p ChanClosed))
                  (Source (set_done p ChanClosed)) = Err e) by exact Hl.
  rewrite (Run_unavailable ListenPacket int64_undef _ _ Hl').
  cbn [done set_done fst snd user trace].
  rewrite <- app_assoc. repeat split.
Qed.

(** X14.  Two runs in a row on a transport that grants the listener both
    return normally, leave the engine as it was, and invoke an installed
    completion callback once each, on the same snapshot. *)
Theorem Run_twice_acquired
  (p : Pinger U) (w : World U Conn) (c : Conn) (h : Stats.t -> U -> U) :
  ListenPacket (netProto_of p) (Source p) = Ok c ->
  OnFinish p = Some h ->
  let out := Run_twice ListenPacket int64_undef (p, w) in
  let s := GenerateStats int64_undef p in
  fst out = Val tt /\
  fst (snd out) = p /\
  user (snd (snd out)) = h s (h s (user w)) /\
  finish_calls (trace (snd (snd out))) = S (S (finish_calls (trace w))) /\
  filter (@isOnFinish Conn) (trace (snd (snd out))) =
    filter (@isOnFinish Conn) (trace w) ++ [EvOnFinish s; EvOnFinish s].
Proof.
  intros Hl Hh out s. subst out s. unfold Run_twice, bind.
  rewrite (Run_acquired ListenPacket int64_undef p w Hl).
  rewrite (Run_acquired ListenPacket int64_undef p _ Hl).
  cbn [fst snd user trace]. unfold finish_user, finish_events. rewrite Hh.
  rewrite !finish_calls_app, !filter_app. cbn.
  repeat split; try lia. now rewrite <- app_assoc.
Qed.

End RunMore.

(** ** The further properties on concrete engines *)

Lemma NewPinger_same_clock_same_tokens_witness :
  Fake.new_two "localhost" = Ok Fake.fresh /\
  Fake.new_two "ip6-localhost" = Ok Fake.fresh6 /\
  id Fake.fresh = id Fake.fresh6 /\ Tracker Fake.fresh = Tracker Fake.fresh6.
Proof.
  assert (H4 : Fake.new_two "localhost" = Ok Fake.fresh) by reflexivity.
  assert (H6 : Fake.new_two "ip6-localhost" = Ok Fake.fresh6)
    by reflexivity.
  split; [exact H4 | split; [exact H6 |]].
  exact (NewPinger_same_clock_same_tokens Fake.resolve_two Fake.rand_New
           Fake.Intn Fake.Int63n 0 "localhost" "ip6-localhost" H4 H6).
Defined.

Lemma NewPinger_token_ranges_witness :
  draws_below Fake.Intn /\ draws_below Fake.Int63n /\
  Fake.new "localhost" = Ok Fake.fresh /\
  0 <= id Fake.fresh < math.MaxInt16 /\
  id Fake.fresh < 2 ^ 16 /\
  0 <= Tracker Fake.fresh < math.MaxInt64 /\
  Int64.in_range (Tracker Fake.fresh).
Proof.
  assert (Hn : draws_below Fake.Intn)
    by (intros r n H; apply Z.mod_pos_bound; exact H).
  assert (Hn63 : draws_below Fake.Int63n)
    by (intros r n H; apply Z.mod_pos_bound; exact H).
  assert (Hnew : Fake.new "localhost" = Ok Fake.fresh) by reflexivity.
  split; [exact Hn | split; [exact Hn63 | split; [exact Hnew |]]].
  exact (NewPinger_token_ranges Fake.resolve Fake.rand_New 0 "localhost"
           Hn Hn63 Hnew).
Defined.

Lemma NewPinger_family_witness :
  Fake.resolve_two "ip" "ip6-localhost" = Ok Fake.loopback6 /\
  Fake.new_two "ip6-localhost" = Ok Fake.fresh6 /\
  ipv4 Fake.fresh6 = false /\
  netProto_of Fake.fresh6 = "udp6"%string /\
  Source Fake.fresh6 = EmptyString.
Proof.
  assert (Hip : Fake.resolve_two "ip" "ip6-localhost" = Ok Fake.loopback6)
    by reflexivity.
  assert (Hnew : Fake.new_two "ip6-localhost" = Ok Fake.fresh6)
    by reflexivity.
  split; [exact Hip | split; [exact Hnew |]].
  exact (NewPinger_family Fake.resolve_two Fake.rand_New Fake.Intn
           Fake.Int63n 0 "ip6-localhost" Hip Hnew).
Defined.

Lemma GenerateStats_avg_between_witness :
  rtts Fake.sampled <> [] /\
  Int64.in_range (sum (rtts Fake.sampled)) /\
  10 <= Stats.AvgRtt (Fake.stats Fake.sampled) <= 60 /\
  Z.abs (90 - 3 * Stats.AvgRtt (Fake.stats Fake.sampled)) < 3.
Proof.
  assert (Hne : rtts Fake.sampled <> []) by discriminate.
  assert (Hsum : Int64.in_range (sum (rtts Fake.sampled)))
    by (vm_compute; split; discriminate).
  split; [exact Hne | split; [exact Hsum |]].
  exact (GenerateStats_avg_between Fake.int64_undef Fake.sampled Hne Hsum).
Defined.

Lemma GenerateStats_constant_samples_witness :
  rtts Fake.steady <> [] /\
  Forall (fun y => y = 7) (rtts Fake.steady) /\
  Int64.in_range (len (rtts Fake.steady) * 7) /\
  Stats.MinRtt (Fake.stats Fake.steady) = 7 /\
  Stats.MaxRtt (Fake.stats Fake.steady) = 7 /\
  Stats.AvgRtt (Fake.stats Fake.steady) = 7 /\
  Stats.StdDevRtt (Fake.stats Fake.steady) = 0.
Proof.
  assert (Hne : rtts Fake.steady <> []) by discriminate.
  assert (Hall : Forall (fun y => y = 7) (rtts Fake.steady))
    by (repeat constructor).
  assert (Hin : Int64.in_range (len (rtts Fake.steady) * 7))
    by (vm_compute; split; discriminate).
  split; [exact Hne | split; [exact Hall | split; [exact Hin |]]].
  exact (GenerateStats_constant_samples Fake.int64_undef Fake.steady
           Hne Hall Hin).
Defined.

Lemma GenerateStats_stddev_window_witness :
  rtts Fake.sampled <> [] /\
  Forall (fun x => 10 <= x <= 60) (rtts Fake.sampled) /\
  Int64.in_range (sum (rtts Fake.sampled)) /\
  len (rtts Fake.sampled) * ((60 - 10) * (60 - 10)) <= Int64.max_int /\
  10 <= Stats.AvgRtt (Fake.stats Fake.sampled) <= 60 /\
  Stats.StdDevRtt (Fake.stats Fake.sampled) = 21.
Proof.
  assert (Hne : rtts Fake.sampled <> []) by discriminate.
  assert (Hwin : Forall (fun x => 10 <= x <= 60) (rtts Fake.sampled))
    by (repeat (constructor; [cbv beta; lia |]); constructor).
  assert (Hsum : Int64.in_range (sum (rtts Fake.sampled)))
    by (vm_compute; split; discriminate).
  assert (Hbound : len (rtts Fake.sampled) * ((60 - 10) * (60 - 10))
                   <= Int64.max_int) by (vm_compute; discriminate).
  destruct (GenerateStats_stddev_window Fake.int64_undef Fake.sampled
              Hne Hwin Hsum Hbound) as (Havg & _ & Hsd).
  exact (conj Hne (conj Hwin (conj Hsum (conj Hbound (conj Havg Hsd))))).
Defined.

Lemma Run_unavailable_panics_witness :
  Fake.deny_listen (netProto_of Fake.scenarioA_nil)
    (Source Fake.scenarioA_nil)
  = Err "socket: operation not permitted"%string /\
  done Fake.scenarioA_nil <> ChanOpen /\
  fst (Fake.run Fake.deny_listen Fake.scenarioA_nil)
  = Panic "close of nil channel" /\
  Fake.pinger_after Fake.deny_listen Fake.scenarioA_nil
  = Fake.scenarioA_nil /\
  user (Fake.world_after Fake.deny_listen Fake.scenarioA_nil) = 0%nat.
Proof.
  assert (Hl : Fake.deny_listen (netProto_of Fake.scenarioA_nil)
                 (Source Fake.scenarioA_nil)
               = Err "socket: operation not permitted"%string)
    by reflexivity.
  assert (Hdone : done Fake.scenarioA_nil <> ChanOpen) by discriminate.
  destruct (Run_unavailable_panics Fake.deny_listen Fake.int64_undef
              Fake.scenarioA_nil Fake.world0 Hl Hdone)
    as (_ & Hp & Hu & _).
  split; [exact Hl | split; [exact Hdone | split; [reflexivity |]]].
  split; [exact Hp | exact Hu].
Defined.

Lemma Run_twice_unavailable_panics_witness :
  Fake.deny_listen (netProto_of Fake.scenarioA) (Source Fake.scenarioA)
  = Err "socket: operation not permitted"%string /\
  done Fake.scenarioA = ChanOpen /\
  fst (Run_twice Fake.deny_listen Fake.int64_undef
         (Fake.scenarioA, Fake.world0))
  = Panic "close of closed channel" /\
  user (snd (snd (Run_twice Fake.deny_listen Fake.int64_undef
                    (Fake.scenarioA, Fake.world0)))) = 0%nat.
Proof.
  assert (Hl : Fake.deny_listen (netProto_of Fake.scenarioA)
                 (Source Fake.scenarioA)
               = Err "socket: operation not permitted"%string)
    by reflexivity.
  assert (Hdone : done Fake.scenarioA = ChanOpen) by reflexivity.
  destruct (Run_twice_unavailable_panics Fake.deny_listen Fake.int64_undef
              Fake.scenarioA Fake.world0 Hl Hdone)
    as (Hp & _ & Hu & _).
  exact (conj Hl (conj Hdone (conj Hp Hu))).
Defined.

Lemma Run_twice_acquired_witness :
  Fake.echo_listen (netProto_of Fake.scenarioA) (Source Fake.scenarioA)
  = Ok 0%nat /\
  OnFinish Fake.scenarioA = Some Fake.count_finish /\
  fst (Run_twice Fake.echo_listen Fake.int64_undef
         (Fake.scenarioA, Fake.world0)) = Val tt /\
  user (snd (snd (Run_twice Fake.echo_listen Fake.int64_undef
                    (Fake.scenarioA, Fake.world0)))) = 2%nat.
Proof.
  assert (Hl : Fake.echo_listen (netProto_of Fake.scenarioA)
                 (Source Fake.scenarioA) = Ok 0%nat) by reflexivity.
  assert (Hh : OnFinish Fake.scenarioA = Some Fake.count_finish)
    by reflexivity.
  destruct (Run_twice_acquired Fake.echo_listen Fake.int64_undef
              Fake.scenarioA Fake.world0 Hl Hh)
    as (Hret & _ & Hu & _).
  exact (conj Hl (conj Hh (conj Hret Hu))).
Defined.

Lemma GenerateStats_closed_form_witness :
  rtts (set_rtts Fake.fresh Fake.spread) <> [] /\
  Stats.AvgRtt (Fake.stats (set_rtts Fake.fresh Fake.spread))
  = Z.quot (Int64.wrap (0 + 8589934593)) 2 /\
  Stats.StdDevRtt (Fake.stats (set_rtts Fake.fresh Fake.spread)) = 65536.
Proof.
  assert (Hne : rtts (set_rtts Fake.fresh Fake.spread) <> [])
    by discriminate.
  destruct (GenerateStats_closed_form Fake.int64_undef
              (set_rtts Fake.fresh Fake.spread) Hne) as [Havg Hsd].
  split; [exact Hne | split; [exact Havg | exact Hsd]].
Defined.
